(** * UdaPlay tool adapters: a shallow embedding of [starter/tools/tools.py]

    The Python module defines seven adapters (HTTP GET/POST, web search,
    database introspection and query, vector-collection search), each a
    short delegation to an external collaborator.  The embedding keeps the
    adapters as they are written and makes the collaborators explicit:

    - Python values, exceptions, [str]/[repr] and dict access ([Py]);
    - the [requests] response object and [raise_for_status] ([Requests]);
    - [datetime.isoformat] ([Datetime]);
    - an effect monad over a world holding the answers of the ambient
      collaborators, the event log and the database: a call either
      returns a value or raises, and in both cases leaves a world behind;
    - the adapters themselves, with the database engine and the RAG
      collection passed as handle arguments, as in the source;
    - the tool descriptor that the [tool] decorator builds. *)

From Stdlib Require Import ZArith NArith List String Ascii Bool Lia Arith.
From Stdlib Require Import DecimalString.
Import ListNotations.
Local Open Scope string_scope.
Set Warnings "-register-all".

(* ================================================================== *)
(** ** Python values *)
(* ================================================================== *)

Module Py.

(** The values the adapters exchange with their caller: JSON-like data,
    tuples (database rows) and objects of which only the [repr] matters
    (column types such as [INTEGER()]).  A dict is an association list in
    insertion order, the order Python keeps and prints. *)
Inductive pyval : Type :=
| PNone
| PBool (b : bool)
| PInt (z : Z)
| PStr (s : string)
| PList (l : list pyval)
| PTuple (l : list pyval)
| PDict (d : list (string * pyval))
| PObj (r : string).

(** Exception classes met at the adapters' boundary, with their bases as
    the libraries declare them. *)
Inductive exn_class : Type :=
| BaseException | Exception | ValueError | TypeError | LookupError
| KeyError | AttributeError | OSError
| JSONDecodeError            (* json.JSONDecodeError *)
| RequestException           (* requests.exceptions.* from here *)
| HTTPError | ConnectionError | InvalidURL
| InvalidJSONError | RequestsJSONDecodeError
| SQLAlchemyError            (* sqlalchemy.exc.* from here *)
| InvalidRequestError | NoSuchTableError | ResourceClosedError
| StatementError | DBAPIError | DatabaseError
| OperationalError | ProgrammingError
| ToolCallError.             (* the call-shape error of the tool descriptor *)

Definition bases (c : exn_class) : list exn_class :=
  match c with
  | BaseException => []
  | Exception => [BaseException]
  | ValueError | TypeError | LookupError | AttributeError | OSError => [Exception]
  | KeyError => [LookupError]
  | JSONDecodeError => [ValueError]
  | RequestException => [OSError]
  | HTTPError | ConnectionError => [RequestException]
  | InvalidURL => [RequestException; ValueError]
  | InvalidJSONError => [RequestException]
  | RequestsJSONDecodeError => [InvalidJSONError; JSONDecodeError]
  | SQLAlchemyError => [Exception]
  | InvalidRequestError | StatementError => [SQLAlchemyError]
  | NoSuchTableError | ResourceClosedError => [InvalidRequestError]
  | DBAPIError => [StatementError]
  | DatabaseError => [DBAPIError]
  | OperationalError | ProgrammingError => [DatabaseError]
  | ToolCallError => [TypeError]
  end.

Definition exn_class_eqb (a b : exn_class) : bool :=
  match a, b with
  | BaseException, BaseException | Exception, Exception
  | ValueError, ValueError | TypeError, TypeError
  | LookupError, LookupError | KeyError, KeyError
  | AttributeError, AttributeError | OSError, OSError
  | JSONDecodeError, JSONDecodeError
  | RequestException, RequestException | HTTPError, HTTPError
  | ConnectionError, ConnectionError
  | InvalidURL, InvalidURL | InvalidJSONError, InvalidJSONError
  | RequestsJSONDecodeError, RequestsJSONDecodeError
  | SQLAlchemyError, SQLAlchemyError
  | InvalidRequestError, InvalidRequestError
  | NoSuchTableError, NoSuchTableError
  | ResourceClosedError, ResourceClosedError
  | StatementError, StatementError | DatabaseError, DatabaseError
  | DBAPIError, DBAPIError | OperationalError, OperationalError
  | ProgrammingError, ProgrammingError
  | ToolCallError, ToolCallError => true
  | _, _ => false
  end.

(** [issubclass c d]: [d] is [c] or an ancestor of [c].  No class above
    is more than six steps from [BaseException]; the fuel is never
    exhausted. *)
Fixpoint issubclass_fuel (n : nat) (c d : exn_class) : bool :=
  exn_class_eqb c d ||
  match n with
  | O => false
  | S n' => existsb (fun b => issubclass_fuel n' b d) (bases c)
  end.

Definition issubclass : exn_class -> exn_class -> bool := issubclass_fuel 8.

(** An exception instance: its class and what [str(e)] prints. *)
Record exn : Type := mkExn { exn_cls : exn_class; exn_str : string }.

Definition isinstance (e : exn) (c : exn_class) : bool :=
  issubclass (exn_cls e) c.

(** *** [repr] and [str] *)

Definition dquote : ascii := ascii_of_nat 34.
Definition squote : ascii := ascii_of_nat 39.
Definition backslash : ascii := ascii_of_nat 92.

Fixpoint contains_char (c : ascii) (s : string) : bool :=
  match s with
  | EmptyString => false
  | String a s' => Ascii.eqb a c || contains_char c s'
  end.

Definition hex_digit (n : nat) : ascii :=
  nth n (list_ascii_of_string "0123456789abcdef") "0"%char.

(** One character of a [str] literal printed with quote [q]. *)
Definition repr_char (q c : ascii) : string :=
  let n := nat_of_ascii c in
  if Ascii.eqb c backslash then String backslash (String backslash "")
  else if Ascii.eqb c q then String backslash (String q "")
  else if Nat.eqb n 10 then String backslash "n"
  else if Nat.eqb n 13 then String backslash "r"
  else if Nat.eqb n 9 then String backslash "t"
  else if Nat.ltb n 32 || Nat.eqb n 127 then
    String backslash (String "x" (String (hex_digit (n / 16)) (String (hex_digit (n mod 16)) "")))
  else String c "".

Fixpoint repr_chars (q : ascii) (s : string) : string :=
  match s with
  | EmptyString => ""
  | String c s' => repr_char q c ++ repr_chars q s'
  end.

(** [repr] of a [str]: single quotes, unless the text has a single quote
    and no double quote. *)
Definition repr_str (s : string) : string :=
  let q := if contains_char squote s && negb (contains_char dquote s)
           then dquote else squote in
  String q (repr_chars q s ++ String q "").

Definition repr_int (z : Z) : string := NilZero.string_of_int (Z.to_int z).

Fixpoint join (sep : string) (l : list string) : string :=
  match l with
  | [] => ""
  | [x] => x
  | x :: rest => x ++ sep ++ join sep rest
  end.

Fixpoint repr (v : pyval) : string :=
  match v with
  | PNone => "None"
  | PBool true => "True"
  | PBool false => "False"
  | PInt z => repr_int z
  | PStr s => repr_str s
  | PList l => "[" ++ join ", " (map repr l) ++ "]"
  | PTuple l =>
      match l with
      | [x] => "(" ++ repr x ++ ",)"
      | _ => "(" ++ join ", " (map repr l) ++ ")"
      end
  | PDict d =>
      "{" ++ join ", " (map (fun kv => repr_str (fst kv) ++ ": " ++ repr (snd kv)) d) ++ "}"
  | PObj r => r
  end.

(** [str(v)]: the text itself for a [str], the [repr] otherwise. *)
Definition str (v : pyval) : string :=
  match v with
  | PStr s => s
  | _ => repr v
  end.

(** *** Dict access *)

Fixpoint lookup (k : string) (d : list (string * pyval)) : option pyval :=
  match d with
  | [] => None
  | (k', v) :: rest => if String.eqb k' k then Some v else lookup k rest
  end.

Definition type_name (v : pyval) : string :=
  match v with
  | PNone => "NoneType"
  | PBool _ => "bool"
  | PInt _ => "int"
  | PStr _ => "str"
  | PList _ => "list"
  | PTuple _ => "tuple"
  | PDict _ => "dict"
  | PObj _ => "object"
  end.

(** [v[k]] for a string key [k]: the bound value, [KeyError] on a dict
    without the key, [TypeError] on anything that is not a dict. *)
Definition getitem (v : pyval) (k : string) : exn + pyval :=
  match v with
  | PDict d =>
      match lookup k d with
      | Some x => inr x
      | None => inl (mkExn KeyError (repr_str k))
      end
  | PStr _ => inl (mkExn TypeError "string indices must be integers, not 'str'")
  | PList _ | PTuple _ =>
      inl (mkExn TypeError (type_name v ++ " indices must be integers or slices, not str"))
  | _ => inl (mkExn TypeError ("'" ++ type_name v ++ "' object is not subscriptable"))
  end.

(** [v.get(k, default)]: the bound value or [default] on a dict,
    [AttributeError] on anything else. *)
Definition dict_get (v : pyval) (k : string) (default : pyval) : exn + pyval :=
  match v with
  | PDict d =>
      match lookup k d with
      | Some x => inr x
      | None => inr default
      end
  | _ => inl (mkExn AttributeError
                ("'" ++ type_name v ++ "' object has no attribute 'get'"))
  end.

End Py.
Import Py.

(* ================================================================== *)
(** ** The [requests] response object *)
(* ================================================================== *)

Module Requests.

(** What the adapters use of a [requests.Response]: the status line, the
    final URL, the raw body and the outcome of [response.json()], which
    either returns the decoded value or raises. *)
Record Response : Type := mkResponse {
  status_code : Z;
  reason : string;
  url : string;
  text : string;
  json : exn + pyval
}.

(** [requests.get] / [requests.post] either raise or hand back a
    response, whatever its status. *)
Inductive result : Type :=
| Raised (e : exn)
| Responded (r : Response).

(** [Response.raise_for_status()]: an [HTTPError] for a 4xx or 5xx status,
    nothing otherwise. *)
Definition raise_for_status (r : Response) : option exn :=
  let code := status_code r in
  if (400 <=? code)%Z && (code <? 500)%Z then
    Some (mkExn HTTPError
            (repr_int code ++ " Client Error: " ++ reason r ++ " for url: " ++ url r))
  else if (500 <=? code)%Z && (code <? 600)%Z then
    Some (mkExn HTTPError
            (repr_int code ++ " Server Error: " ++ reason r ++ " for url: " ++ url r))
  else None.

(** [Response.ok]. *)
Definition ok (r : Response) : bool :=
  match raise_for_status r with
  | Some _ => false
  | None => true
  end.

End Requests.

(* ================================================================== *)
(** ** [datetime] *)
(* ================================================================== *)

Module Datetime.

Definition is_leap (y : N) : bool :=
  ((y mod 4 =? 0) && negb (y mod 100 =? 0) || (y mod 400 =? 0))%N.

Definition days_in_month (y m : N) : N :=
  (if m =? 2 then (if is_leap y then 29 else 28)
   else if (m =? 4) || (m =? 6) || (m =? 9) || (m =? 11) then 30
   else 31)%N.

(** The seven fields of a naive [datetime]. *)
Record fields : Type := mkFields {
  year : N; month : N; day : N;
  hour : N; minute : N; second : N; microsecond : N
}.

(** The ranges the [datetime] constructor enforces. *)
Definition valid (f : fields) : bool :=
  ((1 <=? year f) && (year f <=? 9999) &&
   (1 <=? month f) && (month f <=? 12) &&
   (1 <=? day f) && (day f <=? days_in_month (year f) (month f)) &&
   (hour f <? 24) && (minute f <? 60) && (second f <? 60) &&
   (microsecond f <? 1000000))%N.

(** A [datetime] object: fields within range, as every instance is. *)
Record datetime : Type := mkDatetime {
  dt_fields : fields;
  dt_valid : valid dt_fields = true
}.

Definition digit_char (d : N) : ascii := ascii_of_N (48 + d).

(** The [w] low decimal digits of [n], most significant first: what
    [%0wd] prints for [n < 10^w]. *)
Fixpoint digits (w : nat) (n : N) : string :=
  match w with
  | O => ""
  | S w' => String (digit_char ((n / 10 ^ N.of_nat w') mod 10)) (digits w' n)
  end.

(** [datetime.isoformat()] with the default separator and
    [timespec='auto'], for a naive datetime: the fraction is printed only
    when the microseconds are not zero. *)
Definition isoformat_fields (f : fields) : string :=
  digits 4 (year f) ++ "-" ++ digits 2 (month f) ++ "-" ++ digits 2 (day f)
  ++ "T" ++ digits 2 (hour f) ++ ":" ++ digits 2 (minute f) ++ ":"
  ++ digits 2 (second f)
  ++ (if (microsecond f =? 0)%N then "" else "." ++ digits 6 (microsecond f)).

Definition isoformat (d : datetime) : string := isoformat_fields (dt_fields d).

(** *** Reading an ISO-8601 extended timestamp

    The accepted shape is [YYYY-MM-DDTHH:MM:SS] with an optional
    [.ffffff]; anything else, or a field out of range, is rejected. *)

Definition digit_val (c : ascii) : option N :=
  let n := N_of_ascii c in
  if ((48 <=? n) && (n <=? 57))%N then Some (n - 48)%N else None.

Fixpoint read_digits (w : nat) (acc : N) (s : string) : option (N * string) :=
  match w with
  | O => Some (acc, s)
  | S w' =>
      match s with
      | EmptyString => None
      | String c s' =>
          match digit_val c with
          | Some d => read_digits w' (acc * 10 + d) s'
          | None => None
          end
      end
  end.

Definition expect (c : ascii) (s : string) : option string :=
  match s with
  | String a s' => if Ascii.eqb a c then Some s' else None
  | EmptyString => None
  end.

Definition bind_opt {A B} (o : option A) (k : A -> option B) : option B :=
  match o with
  | Some a => k a
  | None => None
  end.

Definition read_field (w : nat) (sep : ascii) (s : string) : option (N * string) :=
  bind_opt (read_digits w 0 s) (fun '(n, s1) =>
  bind_opt (expect sep s1) (fun s2 => Some (n, s2))).

Definition parse_iso8601 (s : string) : option fields :=
  bind_opt (read_field 4 "-" s) (fun '(y, s) =>
  bind_opt (read_field 2 "-" s) (fun '(mo, s) =>
  bind_opt (read_field 2 "T" s) (fun '(d, s) =>
  bind_opt (read_field 2 ":" s) (fun '(h, s) =>
  bind_opt (read_field 2 ":" s) (fun '(mi, s) =>
  bind_opt (read_digits 2 0 s) (fun '(sec, s) =>
  bind_opt
    (match s with
     | EmptyString => Some 0%N
     | String _ _ =>
         bind_opt (expect "." s) (fun s =>
         bind_opt (read_digits 6 0 s) (fun '(us, s) =>
         match s with
         | EmptyString => Some us
         | String _ _ => None
         end))
     end)
    (fun us =>
       let f := mkFields y mo d h mi sec us in
       if valid f then Some f else None))))))).

Definition is_iso8601 (s : string) : bool :=
  match parse_iso8601 s with
  | Some _ => true
  | None => false
  end.

End Datetime.

(* ================================================================== *)
(** ** Collaborator handles *)
(* ================================================================== *)

(** Keyword arguments of [TavilyClient.search] as [web_search] passes
    them. *)
Record search_args : Type := mkSearchArgs {
  sa_query : string;
  sa_search_depth : string;
  sa_include_answer : bool;
  sa_include_raw_content : bool;
  sa_include_images : bool
}.

(** A [TavilyClient]: what a search returns or raises. *)
Record TavilyClient : Type := mkTavilyClient {
  client_search : search_args -> exn + pyval
}.

(** A [Run] of the retrieval state machine, known by its final state. *)
Record Run : Type := mkRun {
  run_final_state : pyval
}.

(** A RAG collection: [invoke(query)] runs the pipeline to its end and
    returns the run, or raises. *)
Record RAG : Type := mkRAG {
  rag_invoke : string -> exn + Run
}.

(** What happens outside the process and is visible to a test. *)
Inductive event : Type :=
| HttpGet (url : string)
| HttpPost (url : string) (data : pyval)
| Getenv (name : string)
| TavilySearch (args : search_args)
| ClockRead
| DbInspect
| DbGetTableNames
| DbGetColumns (table_name : string)
| DbConnect
| DbBegin
| DbExecute (query : string)
| DbFetchall
| DbCommit
| DbRollback
| DbClose
| RagInvoke (query : string).

Section Model.

(** The contents of the database, whatever the engine is. *)
Context {DbState : Type}.

(** A [Result] of [Connection.execute]: [fetchall()] returns the rows or
    raises (a statement that returns no rows has a closed result). *)
Record Cursor : Type := mkCursor {
  cursor_fetchall : exn + list pyval
}.

(** The [Inspector] obtained from [sqlalchemy.inspect(engine)]. *)
Record Inspector : Type := mkInspector {
  insp_get_table_names : exn + list string;
  insp_get_columns : string -> exn + pyval
}.

(** What a statement run inside a transaction leaves: its result or the
    engine's fault, the committed contents and the working contents of
    the transaction.  A statement kept inside the transaction leaves the
    committed contents as they were; one that the driver runs outside the
    transaction, or that commits implicitly, changes them. *)
Record Executed : Type := mkExecuted {
  st_result : exn + Cursor;
  st_committed : DbState;
  st_working : DbState
}.

(** A database engine handle.  [eng_execute q c s] runs statement [q] in
    a transaction with working contents [s], over the committed contents
    [c]. *)
Record Engine : Type := mkEngine {
  eng_connect : option exn;
  eng_execute : string -> DbState -> DbState -> Executed;
  eng_commit : DbState -> option exn;
  eng_inspect : DbState -> exn + Inspector
}.

(** The world a call runs in: how the ambient collaborators (module
    [requests], the process environment, the Tavily client constructor,
    the wall clock) will answer, and the state a call can change (the
    event log in chronological order, the committed database contents and
    the working contents of the open transaction, if any).  The clock is
    read at an instant, the number of events logged so far. *)
Record world : Type := mkWorld {
  requests_get : string -> Requests.result;
  requests_post : string -> pyval -> Requests.result;
  os_getenv : string -> option string;
  new_TavilyClient : option string -> exn + TavilyClient;
  datetime_now : nat -> Datetime.datetime;
  log : list event;
  db : DbState;
  txn : option DbState
}.

Definition set_log (l : list event) (w : world) : world :=
  mkWorld (requests_get w) (requests_post w) (os_getenv w)
          (new_TavilyClient w) (datetime_now w) l (db w) (txn w).

Definition set_db (s : DbState) (w : world) : world :=
  mkWorld (requests_get w) (requests_post w) (os_getenv w)
          (new_TavilyClient w) (datetime_now w) (log w) s (txn w).

Definition set_txn (t : option DbState) (w : world) : world :=
  mkWorld (requests_get w) (requests_post w) (os_getenv w)
          (new_TavilyClient w) (datetime_now w) (log w) (db w) t.

(** *** The effect monad: return or raise, and the world left behind *)

Inductive outcome (A : Type) : Type :=
| Ret (a : A)
| Raise (e : exn).
Arguments Ret {A} a.
Arguments Raise {A} e.

Definition M (A : Type) : Type := world -> outcome A * world.

Definition ret {A} (a : A) : M A := fun w => (Ret a, w).

Definition raise {A} (e : exn) : M A := fun w => (Raise e, w).

Definition bind {A B} (c : M A) (k : A -> M B) : M B :=
  fun w =>
    match c w with
    | (Ret a, w') => k a w'
    | (Raise e, w') => (Raise e, w')
    end.

Notation "x <- c ;; k" := (bind c (fun x => k))
  (at level 100, c at next level, right associativity).
Notation "c ;;; k" := (bind c (fun _ => k))
  (at level 100, right associativity).

Definition emit (ev : event) : M unit :=
  fun w => (Ret tt, set_log (log w ++ [ev]) w).

Definition lift {A} (r : exn + A) : M A :=
  match r with
  | inl e => raise e
  | inr a => ret a
  end.

(** [try: body except cls as e: handler(e)]. *)
Definition try_except {A} (body : M A) (cls : exn_class) (handler : exn -> M A) : M A :=
  fun w =>
    match body w with
    | (Raise e, w') => if isinstance e cls then handler e w' else (Raise e, w')
    | r => r
    end.

(** [with mgr as x: body(x)] for a manager that never swallows an
    exception (as the one of [Engine.begin()]): [enter] yields [x];
    [exit_] runs on both ways out of the body, told the exception if there
    is one; an exception of the body is raised again after it, unless
    [exit_] raises its own. *)
Definition with_ {A B} (enter : M A) (exit_ : option exn -> M unit) (body : A -> M B) : M B :=
  fun w =>
    match enter w with
    | (Raise e, w1) => (Raise e, w1)
    | (Ret x, w1) =>
        match body x w1 with
        | (Ret b, w2) =>
            match exit_ None w2 with
            | (Ret _, w3) => (Ret b, w3)
            | (Raise e, w3) => (Raise e, w3)
            end
        | (Raise e, w2) =>
            match exit_ (Some e) w2 with
            | (Ret _, w3) => (Raise e, w3)
            | (Raise e', w3) => (Raise e', w3)
            end
        end
    end.

Definition modify (f : world -> world) : M unit := fun w => (Ret tt, f w).

Definition ask {A} (f : world -> A) : M A := fun w => (Ret (f w), w).

(** *** Calls into the collaborators *)

(** [requests.get(url)]. *)
Definition http_get (url : string) : M Requests.Response :=
  emit (HttpGet url) ;;;
  r <- ask (fun w => requests_get w url) ;;
  match r with
  | Requests.Raised e => raise e
  | Requests.Responded resp => ret resp
  end.

(** [requests.post(url, json=data)]. *)
Definition http_post (url : string) (data : pyval) : M Requests.Response :=
  emit (HttpPost url data) ;;;
  r <- ask (fun w => requests_post w url data) ;;
  match r with
  | Requests.Raised e => raise e
  | Requests.Responded resp => ret resp
  end.

Definition raise_for_status (response : Requests.Response) : M unit :=
  match Requests.raise_for_status response with
  | Some e => raise e
  | None => ret tt
  end.

Definition response_json (response : Requests.Response) : M pyval :=
  lift (Requests.json response).

(** [os.getenv(name)]. *)
Definition getenv (name : string) : M (option string) :=
  emit (Getenv name) ;;;
  ask (fun w => os_getenv w name).

(** [TavilyClient(api_key=api_key)]. *)
Definition TavilyClient_new (api_key : option string) : M TavilyClient :=
  r <- ask (fun w => new_TavilyClient w api_key) ;;
  lift r.

(** [client.search(...)]. *)
Definition search (client : TavilyClient) (args : search_args) : M pyval :=
  emit (TavilySearch args) ;;;
  lift (client_search client args).

(** [datetime.now()]: the clock at the instant of the read. *)
Definition now : M Datetime.datetime :=
  t <- ask (fun w => datetime_now w (List.length (log w))) ;;
  emit ClockRead ;;;
  ret t.

(** [sqlalchemy.inspect(engine)], on the committed contents. *)
Definition sqlalchemy_inspect (engine : Engine) : M Inspector :=
  emit DbInspect ;;;
  r <- ask (fun w => eng_inspect engine (db w)) ;;
  lift r.

Definition get_table_names (inspector : Inspector) : M (list string) :=
  emit DbGetTableNames ;;;
  lift (insp_get_table_names inspector).

Definition get_columns (inspector : Inspector) (table_name : string) : M pyval :=
  emit (DbGetColumns table_name) ;;;
  lift (insp_get_columns inspector table_name).

(** Entering [Engine.begin()]: connect, then open a transaction on the
    committed contents; the connection is the value bound by [as]. *)
Definition begin_enter (engine : Engine) : M Engine :=
  emit DbConnect ;;;
  match eng_connect engine with
  | Some e => raise e
  | None =>
      emit DbBegin ;;;
      modify (fun w => set_txn (Some (db w)) w) ;;;
      ret engine
  end.

Definition rollback_and_close : M unit :=
  emit DbRollback ;;;
  modify (set_txn None) ;;;
  emit DbClose.

(** Leaving [Engine.begin()]: roll back when the body raised; commit
    otherwise, rolling back if the commit itself fails; close the
    connection in every case. *)
Definition begin_exit (engine : Engine) (exc : option exn) : M unit :=
  match exc with
  | Some _ => rollback_and_close
  | None =>
      t <- ask txn ;;
      match t with
      | None => emit DbClose
      | Some s =>
          match eng_commit engine s with
          | Some e => rollback_and_close ;;; raise e
          | None =>
              emit DbCommit ;;;
              modify (fun w => set_txn None (set_db s w)) ;;;
              emit DbClose
          end
      end
  end.

(** [connection.execute(text(query))], inside the open transaction. *)
Definition connection_execute (connection : Engine) (query : string) : M Cursor :=
  emit (DbExecute query) ;;;
  t <- ask txn ;;
  match t with
  | None => raise (mkExn ResourceClosedError "This Connection is closed")
  | Some s =>
      c <- ask db ;;
      let x := eng_execute connection query c s in
      modify (fun w => set_txn (Some (st_working x)) (set_db (st_committed x) w)) ;;;
      lift (st_result x)
  end.

Definition fetchall (result : Cursor) : M (list pyval) :=
  emit DbFetchall ;;;
  lift (cursor_fetchall result).

(** [RAG_collection.invoke(query)]. *)
Definition invoke (RAG_collection : RAG) (query : string) : M Run :=
  emit (RagInvoke query) ;;;
  lift (rag_invoke RAG_collection query).

Definition get_final_state (result : Run) : M pyval :=
  ret (run_final_state result).

(* ================================================================== *)
(** ** The adapters of [tools.py] *)
(* ================================================================== *)

Definition GET_request (url : string) : M pyval :=
  try_except
    (response <- http_get url ;;
     raise_for_status response ;;;
     response_json response)
    RequestException
    (fun e => ret (PStr ("An error occurred: " ++ exn_str e))).

Definition POST_request (url : string) (data : pyval) : M pyval :=
  try_except
    (response <- http_post url data ;;
     raise_for_status response ;;;
     response_json response)
    RequestException
    (fun e => ret (PStr ("An error occurred: " ++ exn_str e))).

(** Default of [web_search]'s second parameter. *)
Definition default_search_depth : string := "advanced".

Definition web_search (query : string) (search_depth : string) : M pyval :=
  api_key <- getenv "TAVILY_API_KEY" ;;
  client <- TavilyClient_new api_key ;;
  search_result <- search client (mkSearchArgs query search_depth true false false) ;;
  answer <- lift (dict_get search_result "answer" (PStr "")) ;;
  results <- lift (dict_get search_result "results" (PList [])) ;;
  timestamp <- now ;;
  ret (PDict [("answer", answer);
              ("results", results);
              ("search_metadata",
               PDict [("timestamp", PStr (Datetime.isoformat timestamp));
                      ("query", PStr query)])]).

Definition list_tables_tool (DB_ENGINE : Engine) : M pyval :=
  inspector <- sqlalchemy_inspect DB_ENGINE ;;
  names <- get_table_names inspector ;;
  ret (PList (map PStr names)).

Definition get_table_schema_tool (table_name : string) (DB_ENGINE : Engine) : M pyval :=
  inspector <- sqlalchemy_inspect DB_ENGINE ;;
  columns <- get_columns inspector table_name ;;
  ret (PStr (str columns)).

Definition execute_sql_tool (query : string) (DB_ENGINE : Engine) : M pyval :=
  answer <- with_ (begin_enter DB_ENGINE) (begin_exit DB_ENGINE)
              (fun connection =>
                 result <- connection_execute connection query ;;
                 fetchall result) ;;
  ret (PStr (str (PList answer))).

Definition search_collection (RAG_collection : RAG) (query : string) : M pyval :=
  result <- invoke RAG_collection query ;;
  state <- get_final_state result ;;
  lift (getitem state "answer").

(* ================================================================== *)
(** ** The tool descriptor *)
(* ================================================================== *)

(** Modelled from the spec: the values a keyword argument of a tool call
    can hold; [lib.tooling] (the [tool] decorator and its descriptor
    class) is not among the sources.  Besides plain data, a call passes
    the collaborator handles by reference. *)
Inductive argval : Type :=
| AVal (v : pyval)
| AEngine (e : Engine)
| ACollection (c : RAG).

(** Modelled from the spec: the expected type of a schema parameter
    ([lib.tooling] is not among the sources); one per kind of parameter
    the adapters declare. *)
Inductive ptype : Type :=
| TStr
| TDict
| TEngine
| TCollection.

(** Modelled from the spec: an entry of a tool's parameter schema
    ([lib.tooling] is not among the sources), "parameter name, expected
    type, with defaults". *)
Record param : Type := mkParam {
  p_name : string;
  p_type : ptype;
  p_default : option argval
}.

(** Modelled from the spec: the tool descriptor of [lib.tooling], which is
    not among the sources: "stable name, human-readable description,
    declared parameter schema, and the underlying invocation target".  The
    target receives the arguments in schema order. *)
Record Tool : Type := mkTool {
  tool_name : string;
  tool_description : string;
  tool_schema : list param;
  tool_func : list argval -> M pyval
}.

(** Modelled from the spec: whether an argument has the type the schema
    expects ([lib.tooling] is not among the sources). *)
Definition has_type (a : argval) (t : ptype) : bool :=
  match a, t with
  | AVal (PStr _), TStr => true
  | AVal (PDict _), TDict => true
  | AEngine _, TEngine => true
  | ACollection _, TCollection => true
  | _, _ => false
  end.

(** Modelled from the spec: lookup in the keyword-argument mapping of an
    invocation request ([lib.tooling] is not among the sources). *)
Fixpoint lookup_arg (k : string) (kwargs : list (string * argval)) : option argval :=
  match kwargs with
  | [] => None
  | (k', a) :: rest => if String.eqb k' k then Some a else lookup_arg k rest
  end.

(** Modelled from the spec: whether the schema declares a parameter
    ([lib.tooling] is not among the sources). *)
Definition declares (schema : list param) (k : string) : bool :=
  existsb (fun p => String.eqb (p_name p) k) schema.

(** Modelled from the spec: the first supplied keyword the schema does not
    declare, "an unexpected extra argument" ([lib.tooling] is not among
    the sources). *)
Fixpoint first_unexpected (schema : list param) (kwargs : list (string * argval)) : option string :=
  match kwargs with
  | [] => None
  | (k, _) :: rest =>
      if declares schema k then first_unexpected schema rest else Some k
  end.

(** Modelled from the spec: binding of the supplied arguments to the
    schema, in schema order ([lib.tooling] is not among the sources).  A
    parameter that is not supplied takes its default; without a default
    the call is refused, as is a value of another type than declared
    ("rather than silently dropping or coercing the value"). *)
Fixpoint bind_arguments (name : string) (schema : list param)
    (kwargs : list (string * argval)) : string + list argval :=
  match schema with
  | [] => inr []
  | p :: rest =>
      let chosen :=
        match lookup_arg (p_name p) kwargs with
        | Some a =>
            if has_type a (p_type p) then inr a
            else inl (name ++ "() argument '" ++ p_name p ++ "' has an unexpected type")
        | None =>
            match p_default p with
            | Some d => inr d
            | None => inl (name ++ "() missing required argument: '" ++ p_name p ++ "'")
            end
        end in
      match chosen with
      | inl msg => inl msg
      | inr a =>
          match bind_arguments name rest kwargs with
          | inl msg => inl msg
          | inr args => inr (a :: args)
          end
      end
  end.

(** Modelled from the spec: invocation of a tool descriptor with a
    keyword-argument mapping ([lib.tooling] is not among the sources).
    The call shape is checked at the descriptor, before the target runs;
    a well-shaped call forwards the arguments and returns the target's
    result unmodified. *)
Definition invoke_tool (t : Tool) (kwargs : list (string * argval)) : M pyval :=
  match first_unexpected (tool_schema t) kwargs with
  | Some k =>
      raise (mkExn ToolCallError
               (tool_name t ++ "() got an unexpected keyword argument '" ++ k ++ "'"))
  | None =>
      match bind_arguments (tool_name t) (tool_schema t) kwargs with
      | inl msg => raise (mkExn ToolCallError msg)
      | inr args => tool_func t args
      end
  end.

(** Modelled from the spec: what the target does with arguments that do
    not fit its parameter list ([lib.tooling] is not among the sources);
    never reached through [invoke_tool]. *)
Definition bad_arguments (name : string) : M pyval :=
  raise (mkExn TypeError (name ++ "() called with arguments that do not fit")).

(** *** The seven registered tools

    Names, documentation and parameter lists are those of the decorated
    functions of [tools.py]. *)

Definition tool_GET_request : Tool :=
  mkTool "GET_request"
    "Perform a GET request to the specified URL and return the response text in JSON format."
    [mkParam "url" TStr None]
    (fun args =>
       match args with
       | [AVal (PStr url)] => GET_request url
       | _ => bad_arguments "GET_request"
       end).

Definition tool_POST_request : Tool :=
  mkTool "POST_request"
    "Perform a POST request to the specified URL with the given data and return the response text in JSON format."
    [mkParam "url" TStr None; mkParam "data" TDict None]
    (fun args =>
       match args with
       | [AVal (PStr url); AVal data] => POST_request url data
       | _ => bad_arguments "POST_request"
       end).

Definition tool_web_search : Tool :=
  mkTool "web_search"
    "Search the web using Tavily API"
    [mkParam "query" TStr None;
     mkParam "search_depth" TStr (Some (AVal (PStr default_search_depth)))]
    (fun args =>
       match args with
       | [AVal (PStr query); AVal (PStr search_depth)] => web_search query search_depth
       | _ => bad_arguments "web_search"
       end).

Definition tool_list_tables_tool : Tool :=
  mkTool "list_tables_tool"
    "List all tables in database"
    [mkParam "DB_ENGINE" TEngine None]
    (fun args =>
       match args with
       | [AEngine DB_ENGINE] => list_tables_tool DB_ENGINE
       | _ => bad_arguments "list_tables_tool"
       end).

Definition tool_get_table_schema_tool : Tool :=
  mkTool "get_table_schema_tool"
    "Get schema information about a table. Returns a list of dictionaries."
    [mkParam "table_name" TStr None; mkParam "DB_ENGINE" TEngine None]
    (fun args =>
       match args with
       | [AVal (PStr table_name); AEngine DB_ENGINE] =>
           get_table_schema_tool table_name DB_ENGINE
       | _ => bad_arguments "get_table_schema_tool"
       end).

Definition tool_execute_sql_tool : Tool :=
  mkTool "execute_sql_tool"
    "Execute SQL query and return result."
    [mkParam "query" TStr None; mkParam "DB_ENGINE" TEngine None]
    (fun args =>
       match args with
       | [AVal (PStr query); AEngine DB_ENGINE] => execute_sql_tool query DB_ENGINE
       | _ => bad_arguments "execute_sql_tool"
       end).

Definition tool_search_collection : Tool :=
  mkTool "search_collection"
    "Search the vector database for relevant information."
    [mkParam "RAG_collection" TCollection None; mkParam "query" TStr None]
    (fun args =>
       match args with
       | [ACollection RAG_collection; AVal (PStr query)] =>
           search_collection RAG_collection query
       | _ => bad_arguments "search_collection"
       end).

Definition registry : list Tool :=
  [tool_GET_request; tool_POST_request; tool_web_search;
   tool_list_tables_tool; tool_get_table_schema_tool;
   tool_execute_sql_tool; tool_search_collection].

(** A call-shape message is descriptive when it names the tool and quotes
    a parameter. *)
Definition descriptive (name msg : string) : Prop :=
  exists pre k post, msg = name ++ "() " ++ pre ++ "'" ++ k ++ "'" ++ post.

(** A required parameter of the schema that the call does not supply. *)
Definition missing_required (schema : list param) (kwargs : list (string * argval)) (k : string) : Prop :=
  exists p, In p schema /\ p_name p = k /\ p_default p = None /\
            lookup_arg k kwargs = None.

(** A supplied keyword that the schema does not declare. *)
Definition unexpected_extra (schema : list param) (kwargs : list (string * argval)) (k : string) : Prop :=
  (exists a, In (k, a) kwargs) /\ declares schema k = false.

(* ================================================================== *)
(** ** Notions used to state the properties *)
(* ================================================================== *)

(** The world after logging [evs]. *)
Definition logged (evs : list event) (w : world) : world :=
  set_log (log w ++ evs) w.

(** What a test sees of a run: the outcome, the event log, the committed
    contents of the database and the transaction left open, if any. *)
Definition observe {A} (r : outcome A * world)
    : outcome A * list event * DbState * option DbState :=
  (fst r, log (snd r), db (snd r), txn (snd r)).

(** The run of [execute_sql_tool], path by path. *)
Definition execute_sql_tool_paths (query : string) (DB_ENGINE : Engine) (w : world)
    : outcome pyval * list event * DbState * option DbState :=
  match eng_connect DB_ENGINE with
  | Some e => (Raise e, (log w ++ [DbConnect])%list, db w, txn w)
  | None =>
      let opened := (log w ++ [DbConnect; DbBegin; DbExecute query])%list in
      let x := eng_execute DB_ENGINE query (db w) (db w) in
      match st_result x with
      | inl e =>
          (Raise e, (opened ++ [DbRollback; DbClose])%list, st_committed x, None)
      | inr result =>
          match cursor_fetchall result with
          | inl e =>
              (Raise e, (opened ++ [DbFetchall; DbRollback; DbClose])%list,
               st_committed x, None)
          | inr rows =>
              match eng_commit DB_ENGINE (st_working x) with
              | Some e =>
                  (Raise e, (opened ++ [DbFetchall; DbRollback; DbClose])%list,
                   st_committed x, None)
              | None =>
                  (Ret (PStr (str (PList rows))),
                   (opened ++ [DbFetchall; DbCommit; DbClose])%list,
                   st_working x, None)
              end
          end
      end
  end.

(** The body of both HTTP adapters after the request: check the status,
    decode the body. *)
Definition after_request (r : Requests.result) : outcome pyval :=
  match r with
  | Requests.Raised e => Raise e
  | Requests.Responded resp =>
      match Requests.raise_for_status resp with
      | Some e => Raise e
      | None =>
          match Requests.json resp with
          | inl e => Raise e
          | inr v => Ret v
          end
      end
  end.

(** What [except requests.RequestException] makes of an outcome. *)
Definition soften (o : outcome pyval) : outcome pyval :=
  match o with
  | Raise e =>
      if isinstance e RequestException
      then Ret (PStr ("An error occurred: " ++ exn_str e))
      else Raise e
  | Ret v => Ret v
  end.


(** The request was answered with a success status and [response.json()]
    has outcome [j]. *)
Definition request_succeeded (r : Requests.result) (j : exn + pyval) : Prop :=
  match r with
  | Requests.Raised _ => False
  | Requests.Responded resp =>
      Requests.ok resp = true /\ Requests.json resp = j
  end.

End Model.

Arguments world : clear implicits.
Arguments M : clear implicits.
Arguments Engine : clear implicits.
Arguments Executed : clear implicits.
Arguments argval : clear implicits.
Arguments param : clear implicits.
Arguments Tool : clear implicits.
Arguments Ret {A} a.
Arguments Raise {A} e.

(* ================================================================== *)
(** ** Column descriptors *)
(* ================================================================== *)

(** A column as the docstring of [get_table_schema_tool] describes it:
    name, type, nullable, default, primary_key.  The type is an object
    known by its [repr]; the primary-key entry is the column's position in
    the key, zero when it is not part of it. *)
Record column : Type := mkColumn {
  col_name : string;
  col_type : string;
  col_nullable : bool;
  col_default : pyval;
  col_primary_key : Z
}.

(** The dict the inspector hands back for a column. *)
Definition column_dict (c : column) : pyval :=
  PDict [("name", PStr (col_name c));
         ("type", PObj (col_type c));
         ("nullable", PBool (col_nullable c));
         ("default", col_default c);
         ("primary_key", PInt (col_primary_key c))].

(** The text expected for one column: the five fields, in order. *)
Definition render_column (c : column) : string :=
  "{'name': " ++ repr_str (col_name c)
  ++ ", 'type': " ++ col_type c
  ++ ", 'nullable': " ++ (if col_nullable c then "True" else "False")
  ++ ", 'default': " ++ repr (col_default c)
  ++ ", 'primary_key': " ++ repr_int (col_primary_key c) ++ "}".

(** The text expected for a table: its columns in order. *)
Definition render_columns (cols : list column) : string :=
  "[" ++ join ", " (map render_column cols) ++ "]".

(* ================================================================== *)
(** ** A small concrete world, for running the adapters *)
(* ================================================================== *)

Module Demo.

(** Database contents: the rows of one table, [games]. *)
Definition contents : Type := list pyval.

Definition halo : pyval := PTuple [PStr "Halo"].

(** [CREATE TABLE games (id INTEGER PRIMARY KEY, name TEXT NOT NULL)]. *)
Definition games_schema : list column :=
  [mkColumn "id" "INTEGER()" true PNone 1;
   mkColumn "name" "TEXT()" false PNone 0].

Definition games_columns : pyval := PList (map column_dict games_schema).

Definition inspector : Inspector :=
  mkInspector (inr ["games"])
    (fun t => if String.eqb t "games" then inr games_columns
              else inl (mkExn NoSuchTableError t)).

(** The result of a statement that returns no rows. *)
Definition closed_result : Cursor :=
  mkCursor (inl (mkExn ResourceClosedError
    "This result object does not return rows. It has been closed automatically.")).

(** An engine that keeps every statement inside the transaction. *)
Definition engine : Engine contents :=
  mkEngine None
    (fun q c s =>
       if String.eqb q "SELECT name FROM games" then
         mkExecuted (inr (mkCursor (inr s))) c s
       else if String.eqb q "INSERT INTO games (name) VALUES ('Halo') RETURNING name" then
         mkExecuted (inr (mkCursor (inr [halo]))) c (s ++ [halo])%list
       else if String.eqb q "INSERT INTO games (name) VALUES ('Halo')" then
         mkExecuted (inr closed_result) c (s ++ [halo])%list
       else
         mkExecuted (inl (mkExn OperationalError "(sqlite3.OperationalError) syntax error"))
           c s)
    (fun _ => None)
    (fun _ => inr inspector).

(** The same engine in autocommit mode: what a statement does is
    committed at once, outside the transaction. *)
Definition autocommit_engine : Engine contents :=
  mkEngine None
    (fun q c s =>
       let x := eng_execute engine q c s in
       mkExecuted (st_result x) (st_working x) (st_working x))
    (fun _ => None)
    (fun _ => inr inspector).

Definition unreachable_engine : Engine contents :=
  mkEngine (Some (mkExn OperationalError "unable to open database file"))
    (eng_execute engine) (eng_commit engine) (eng_inspect engine).

Definition server_error : Requests.Response :=
  Requests.mkResponse 500 "Internal Server Error" "http://api.test/fail" "oops"
    (inl (mkExn RequestsJSONDecodeError "Expecting value: line 1 column 1 (char 0)")).

Definition json_ok : Requests.Response :=
  Requests.mkResponse 200 "OK" "http://api.test/game/7" "[7, 8]"
    (inr (PList [PInt 7; PInt 8])).

(** A page that is not JSON, as [requests] 2.27 and later report it. *)
Definition html_page : Requests.Response :=
  Requests.mkResponse 200 "OK" "http://api.test/page" "<html></html>"
    (inl (mkExn RequestsJSONDecodeError "Expecting value: line 1 column 1 (char 0)")).

(** The same page, as older [requests] report it (the decoder's own
    [ValueError]). *)
Definition html_page_legacy : Requests.Response :=
  Requests.mkResponse 200 "OK" "http://api.test/legacy" "<html></html>"
    (inl (mkExn JSONDecodeError "Expecting value: line 1 column 1 (char 0)")).

Definition respond (url : string) : Requests.result :=
  if String.eqb url "http://api.test/fail" then Requests.Responded server_error
  else if String.eqb url "http://api.test/game/7" then Requests.Responded json_ok
  else if String.eqb url "http://api.test/page" then Requests.Responded html_page
  else if String.eqb url "http://api.test/legacy" then Requests.Responded html_page_legacy
  else Requests.Raised (mkExn ConnectionError "Failed to establish a new connection").

(** A provider answer without the [answer] field, with a timestamp of the
    provider's own. *)
Definition provider_reply : pyval :=
  PDict [("query", PStr "best rpg 2023");
         ("results", PList [PDict [("title", PStr "Baldur's Gate 3")]]);
         ("timestamp", PStr "1999-12-31T23:59:59")].

Definition client : TavilyClient := mkTavilyClient (fun _ => inr provider_reply).

Definition clock_fields : Datetime.fields :=
  Datetime.mkFields 2025 3 7 9 5 0 123.

Definition clock : Datetime.datetime :=
  Datetime.mkDatetime clock_fields eq_refl.

Definition pipeline : RAG :=
  mkRAG (fun q =>
    if String.eqb q "answer to everything" then
      inr (mkRun (PDict [("answer", PStr "42"); ("sources", PList [PStr "doc1"])]))
    else
      inr (mkRun (PDict [("sources", PList [])]))).

Definition world0 : world contents :=
  mkWorld respond (fun url _ => respond url)
    (fun _ => Some "tvly-test")
    (fun k => match k with
              | Some _ => inr client
              | None => inl (mkExn Exception "No API key provided")
              end)
    (fun _ => clock)
    [] [] None.

(** A world like [world0] but for the Tavily constructor and the
    environment. *)
Definition with_tavily (env : string -> option string)
    (new_client : option string -> exn + TavilyClient) : world contents :=
  mkWorld respond (fun url _ => respond url) env new_client
    (fun _ => clock) [] [] None.

(** A provider answer whose [answer] is null and that carries fields the
    adapter does not copy. *)
Definition null_answer_reply : pyval :=
  PDict [("answer", PNone);
         ("results", PList [PDict [("title", PStr "Hades")]]);
         ("images", PList []);
         ("response_time", PInt 2)].

(** A provider answer without [results]. *)
Definition bare_reply : pyval :=
  PDict [("answer", PStr "Hades was released in 2020.")].

Definition world_null_answer : world contents :=
  with_tavily (fun _ => Some "tvly-test")
    (fun _ => inr (mkTavilyClient (fun _ => inr null_answer_reply))).

Definition world_bare_reply : world contents :=
  with_tavily (fun _ => Some "tvly-test")
    (fun _ => inr (mkTavilyClient (fun _ => inr bare_reply))).

(** No key in the environment: the constructor refuses. *)
Definition world_no_key : world contents :=
  with_tavily (fun _ => None) (new_TavilyClient world0).

(** The provider is down. *)
Definition world_search_down : world contents :=
  with_tavily (fun _ => Some "tvly-test")
    (fun _ => inr (mkTavilyClient
                     (fun _ => inl (mkExn Exception "usage limit exceeded")))).

(** The provider answers with a list, not a mapping. *)
Definition world_list_reply : world contents :=
  with_tavily (fun _ => Some "tvly-test")
    (fun _ => inr (mkTavilyClient (fun _ => inr (PList [])))).

(** An HTTP client that fails outside its own exception family. *)
Definition world_bad_url : world contents :=
  mkWorld (fun _ => Requests.Raised (mkExn ValueError "label empty or too long"))
    (fun _ _ => Requests.Raised (mkExn ValueError "label empty or too long"))
    (os_getenv world0) (new_TavilyClient world0) (fun _ => clock) [] [] None.

(** An engine that cannot be inspected. *)
Definition offline_engine : Engine contents :=
  mkEngine None (eng_execute engine) (eng_commit engine)
    (fun _ => inl (mkExn OperationalError "unable to open database file")).

(** An engine whose inspector cannot list the tables. *)
Definition locked_inspector : Inspector :=
  mkInspector (inl (mkExn OperationalError "database is locked"))
    (insp_get_columns inspector).

Definition locked_engine : Engine contents :=
  mkEngine None (eng_execute engine) (eng_commit engine)
    (fun _ => inr locked_inspector).

(** A pipeline whose run has no final state, and one that raises. *)
Definition stalled_pipeline : RAG := mkRAG (fun _ => inr (mkRun PNone)).

Definition failing_pipeline : RAG :=
  mkRAG (fun _ => inl (mkExn Exception "retrieval failed")).

End Demo.

(* ================================================================== *)
(** ** Facts about the model *)
(* ================================================================== *)

Lemma append_assoc (a b c : string) : (a ++ b) ++ c = a ++ (b ++ c).
Proof. induction a as [|x a IH]; simpl; [reflexivity|now rewrite IH]. Qed.

Lemma append_nil_r (a : string) : a ++ "" = a.
Proof. induction a as [|x a IH]; simpl; [reflexivity|now rewrite IH]. Qed.

Section DatetimeFacts.

Import Datetime.
Local Open Scope N_scope.

Lemma digit_val_digit_char d : d < 10 -> digit_val (digit_char d) = Some d.
Proof.
  intros Hd. unfold digit_val, digit_char.
  rewrite N_ascii_embedding by lia.
  replace (48 <=? 48 + d) with true by (symmetry; apply N.leb_le; lia).
  replace (48 + d <=? 57) with true by (symmetry; apply N.leb_le; lia).
  cbn [andb]. f_equal. lia.
Qed.

(** Reading back [w] printed digits gives the number they print. *)
Lemma read_digits_digits (w : nat) : forall n acc rest,
  read_digits w acc (digits w n ++ rest)%string =
  Some (acc * 10 ^ N.of_nat w + n mod 10 ^ N.of_nat w, rest).
Proof.
  induction w as [|w IH]; intros n acc rest.
  - simpl. rewrite N.mod_1_r. f_equal. f_equal. lia.
  - cbn [digits read_digits append].
    rewrite digit_val_digit_char by (apply N.mod_lt; lia).
    rewrite IH. f_equal. f_equal.
    rewrite Nat2N.inj_succ, N.pow_succ_r'.
    rewrite (N.mul_comm 10 (10 ^ N.of_nat w)).
    rewrite (N.Div0.mod_mul_r n (10 ^ N.of_nat w) 10).
    lia.
Qed.

Lemma read_digits_exact (w : nat) n rest :
  n < 10 ^ N.of_nat w ->
  read_digits w 0 (digits w n ++ rest)%string = Some (n, rest).
Proof.
  intros Hn. rewrite read_digits_digits, N.mod_small by exact Hn.
  reflexivity.
Qed.

Lemma read_field_digits (w : nat) (sep : ascii) n rest :
  n < 10 ^ N.of_nat w ->
  read_field w sep (digits w n ++ String sep rest)%string = Some (n, rest).
Proof.
  intros Hn. unfold read_field. rewrite read_digits_exact by exact Hn.
  simpl. now rewrite Ascii.eqb_refl.
Qed.

Lemma valid_bounds f :
  valid f = true ->
  year f < 10 ^ 4 /\ month f < 10 ^ 2 /\ day f < 10 ^ 2 /\ hour f < 10 ^ 2 /\
  minute f < 10 ^ 2 /\ second f < 10 ^ 2 /\ microsecond f < 10 ^ 6.
Proof.
  unfold valid. rewrite !andb_true_iff, !N.leb_le, !N.ltb_lt.
  intros [[[[[[[[[_ Hy] _] Hm] _] Hd] Hh] Hmi] Hs] Hus].
  assert (days_in_month (year f) (month f) <= 31).
  { unfold days_in_month.
    destruct (month f =? 2); [destruct (is_leap (year f)); lia|].
    destruct (_ || _); lia. }
  change (10 ^ 4) with 10000. change (10 ^ 2) with 100.
  change (10 ^ 6) with 1000000. lia.
Qed.

(** Turn ["-" ++ x] into the string that starts with the separator. *)
Ltac push_separators :=
  repeat match goal with
         | |- context [(String ?c EmptyString ++ ?x)%string] =>
             change (String c EmptyString ++ x)%string with (String c x)
         end.

(** What [isoformat] prints reads back as the same fields: the text is a
    well-formed ISO-8601 timestamp. *)
Lemma parse_isoformat_fields f :
  valid f = true -> parse_iso8601 (isoformat_fields f) = Some f.
Proof.
  intros Hvalid.
  destruct (valid_bounds f Hvalid) as (Hy & Hm & Hd & Hh & Hmi & Hs & Hus).
  unfold parse_iso8601, isoformat_fields.
  push_separators.
  rewrite (read_field_digits 4 "-") by exact Hy. cbn [bind_opt].
  rewrite (read_field_digits 2 "-") by exact Hm. cbn [bind_opt].
  rewrite (read_field_digits 2 "T") by exact Hd. cbn [bind_opt].
  rewrite (read_field_digits 2 ":") by exact Hh. cbn [bind_opt].
  rewrite (read_field_digits 2 ":") by exact Hmi. cbn [bind_opt].
  rewrite read_digits_exact by exact Hs. cbn [bind_opt].
  destruct f as [y mo d h mi sec us];
    cbn [year month day hour minute second microsecond] in *.
  destruct (N.eqb_spec us 0) as [->|Hne].
  - cbn [bind_opt]. now rewrite Hvalid.
  - push_separators.
    cbn [expect bind_opt]. rewrite Ascii.eqb_refl. cbn [bind_opt].
    rewrite <- (append_nil_r (digits 6 us)).
    rewrite read_digits_exact by exact Hus. cbn [bind_opt].
    now rewrite Hvalid.
Qed.

Lemma isoformat_is_iso8601 (d : datetime) :
  parse_iso8601 (isoformat d) = Some (dt_fields d) /\
  is_iso8601 (isoformat d) = true.
Proof.
  unfold is_iso8601, isoformat.
  rewrite (parse_isoformat_fields _ (dt_valid d)). now split.
Qed.

End DatetimeFacts.

Section Facts.

Context {DbState : Type}.
Implicit Types (w : world DbState) (e : exn) (url query : string).

Lemma set_log_set_log l1 l2 w : set_log l2 (set_log l1 w) = set_log l2 w.
Proof. reflexivity. Qed.

Lemma logged_logged evs1 evs2 w :
  logged evs2 (logged evs1 w) = logged (evs1 ++ evs2) w.
Proof. unfold logged, set_log; simpl. now rewrite <- app_assoc. Qed.

(** *** HTTP adapters *)

Lemma GET_request_run url w :
  GET_request url w =
  (soften (after_request (requests_get w url)), logged [HttpGet url] w).
Proof.
  unfold GET_request, try_except, http_get, bind, emit, ask, raise_for_status,
    response_json, lift, raise, ret, logged; simpl.
  destruct (requests_get w url) as [e|resp]; simpl.
  - destruct (isinstance e RequestException); reflexivity.
  - destruct (Requests.raise_for_status resp) as [e|]; simpl.
    + destruct (isinstance e RequestException); reflexivity.
    + destruct (Requests.json resp) as [e|v]; simpl; [|reflexivity].
      destruct (isinstance e RequestException); reflexivity.
Qed.

Lemma POST_request_run url data w :
  POST_request url data w =
  (soften (after_request (requests_post w url data)), logged [HttpPost url data] w).
Proof.
  unfold POST_request, try_except, http_post, bind, emit, ask, raise_for_status,
    response_json, lift, raise, ret, logged; simpl.
  destruct (requests_post w url data) as [e|resp]; simpl.
  - destruct (isinstance e RequestException); reflexivity.
  - destruct (Requests.raise_for_status resp) as [e|]; simpl.
    + destruct (isinstance e RequestException); reflexivity.
    + destruct (Requests.json resp) as [e|v]; simpl; [|reflexivity].
      destruct (isinstance e RequestException); reflexivity.
Qed.

Lemma raise_for_status_bad_status (resp : Requests.Response) :
  (400 <= Requests.status_code resp < 600)%Z ->
  exists text, Requests.raise_for_status resp = Some (mkExn HTTPError text).
Proof.
  intros [Hlo Hhi]. unfold Requests.raise_for_status.
  destruct (Z.ltb_spec (Requests.status_code resp) 500) as [Hlt|Hge].
  - replace (400 <=? Requests.status_code resp)%Z with true
      by (symmetry; now apply Z.leb_le).
    simpl. eexists; reflexivity.
  - replace (500 <=? Requests.status_code resp)%Z with true
      by (symmetry; now apply Z.leb_le).
    replace (Requests.status_code resp <? 600)%Z with true
      by (symmetry; now apply Z.ltb_lt).
    rewrite andb_false_r. simpl. eexists; reflexivity.
Qed.



Lemma soften_succeeded (r : Requests.result) (j : exn + pyval) :
  request_succeeded r j ->
  soften (after_request r) =
  match j with
  | inr v => Ret v
  | inl e =>
      if isinstance e RequestException
      then Ret (PStr ("An error occurred: " ++ exn_str e))
      else Raise e
  end.
Proof.
  destruct r as [e|resp]; simpl; [tauto|].
  unfold Requests.ok. intros [Hok <-].
  destruct (Requests.raise_for_status resp); [discriminate|].
  destruct (Requests.json resp); reflexivity.
Qed.


(** The text for a 5xx answer, spelled out. *)
Lemma GET_request_server_error w url (resp : Requests.Response) :
  requests_get w url = Requests.Responded resp ->
  (500 <= Requests.status_code resp < 600)%Z ->
  fst (GET_request url w) =
  Ret (PStr ("An error occurred: " ++ repr_int (Requests.status_code resp)
             ++ " Server Error: " ++ Requests.reason resp
             ++ " for url: " ++ Requests.url resp)).
Proof.
  intros Hget [Hlo Hhi].
  assert (Hraise : Requests.raise_for_status resp =
    Some (mkExn HTTPError
            (repr_int (Requests.status_code resp) ++ " Server Error: "
             ++ Requests.reason resp ++ " for url: " ++ Requests.url resp))).
  { unfold Requests.raise_for_status.
    replace (Requests.status_code resp <? 500)%Z with false
      by (symmetry; apply Z.ltb_ge; lia).
    rewrite andb_false_r.
    replace (500 <=? Requests.status_code resp)%Z with true
      by (symmetry; apply Z.leb_le; lia).
    replace (Requests.status_code resp <? 600)%Z with true
      by (symmetry; apply Z.ltb_lt; lia).
    reflexivity. }
  rewrite GET_request_run, Hget. simpl. now rewrite Hraise.
Qed.

(** C5, as amended.  For a response with a success status whose body
    [response.json()] decodes to [v], [GET_request] and [POST_request]
    return [v] itself, whatever the raw text of the response is. *)
Theorem http_adapters_return_parsed_body w url (data v : pyval) :
  (request_succeeded (requests_get w url) (inr v) ->
   GET_request url w = (Ret v, logged [HttpGet url] w))
  /\
  (request_succeeded (requests_post w url data) (inr v) ->
   POST_request url data w = (Ret v, logged [HttpPost url data] w)).
Proof.
  split; intros H.
  - now rewrite GET_request_run, (soften_succeeded _ _ H).
  - now rewrite POST_request_run, (soften_succeeded _ _ H).
Qed.

(** C10, as amended.  The adapters catch exactly the instances of
    [requests.RequestException].  For a response with a success status
    whose body does not decode, the exception [e] of [response.json()]
    escapes when it is not such an instance, and is returned as an
    "An error occurred: ..." string when it is. *)
Theorem http_adapters_undecodable_body w url (data : pyval) e :
  (request_succeeded (requests_get w url) (inl e) ->
   GET_request url w =
   (if isinstance e RequestException
    then Ret (PStr ("An error occurred: " ++ exn_str e))
    else Raise e,
    logged [HttpGet url] w))
  /\
  (request_succeeded (requests_post w url data) (inl e) ->
   POST_request url data w =
   (if isinstance e RequestException
    then Ret (PStr ("An error occurred: " ++ exn_str e))
    else Raise e,
    logged [HttpPost url data] w)).
Proof.
  split; intros H.
  - now rewrite GET_request_run, (soften_succeeded _ _ H).
  - now rewrite POST_request_run, (soften_succeeded _ _ H).
Qed.

(** *** Database adapters *)

Lemma execute_sql_tool_run query (DB_ENGINE : Engine DbState) w :
  observe (execute_sql_tool query DB_ENGINE w) =
  execute_sql_tool_paths query DB_ENGINE w.
Proof.
  unfold execute_sql_tool_paths, observe, execute_sql_tool, with_, begin_enter,
    begin_exit, rollback_and_close, connection_execute, fetchall, bind, emit,
    modify, ask, lift, raise, ret.
  simpl.
  destruct (eng_connect DB_ENGINE) as [e|]; simpl; [reflexivity|].
  destruct (eng_execute DB_ENGINE query (db w) (db w)) as [[e|result] c' s'];
    simpl.
  - now rewrite <- !app_assoc.
  - destruct (cursor_fetchall result) as [e|rows]; simpl.
    + now rewrite <- !app_assoc.
    + destruct (eng_commit DB_ENGINE s') as [e|]; simpl;
        now rewrite <- !app_assoc.
Qed.

Lemma get_table_schema_tool_run table_name (DB_ENGINE : Engine DbState) w :
  get_table_schema_tool table_name DB_ENGINE w =
  match eng_inspect DB_ENGINE (db w) with
  | inl e => (Raise e, logged [DbInspect] w)
  | inr inspector =>
      match insp_get_columns inspector table_name with
      | inl e => (Raise e, logged [DbInspect; DbGetColumns table_name] w)
      | inr columns =>
          (Ret (PStr (str columns)), logged [DbInspect; DbGetColumns table_name] w)
      end
  end.
Proof.
  unfold get_table_schema_tool, sqlalchemy_inspect, get_columns, bind, emit, ask,
    lift, raise, ret, logged, set_log.
  simpl.
  destruct (eng_inspect DB_ENGINE (db w)) as [e|inspector]; simpl; [reflexivity|].
  destruct (insp_get_columns inspector table_name) as [e|columns]; simpl;
    now rewrite <- app_assoc.
Qed.

Lemma search_collection_run (RAG_collection : RAG) query w :
  search_collection RAG_collection query w =
  (match rag_invoke RAG_collection query with
   | inl e => Raise e
   | inr result =>
       match getitem (run_final_state result) "answer" with
       | inl e => Raise e
       | inr v => Ret v
       end
   end,
   logged [RagInvoke query] w).
Proof.
  unfold search_collection, invoke, get_final_state, bind, emit, lift, raise, ret,
    logged.
  simpl.
  destruct (rag_invoke RAG_collection query) as [e|result]; simpl; [reflexivity|].
  destruct (getitem (run_final_state result) "answer"); reflexivity.
Qed.

(** C3.  The adapters do not catch hard backend failures: (a) when the
    engine faults on the query, [execute_sql_tool] raises that very fault
    (and so returns no string); (b) when the inspector raises on the table
    name, [get_table_schema_tool] raises that very error; (c) when the
    pipeline's terminal state is a mapping without the key "answer",
    [search_collection] raises [KeyError]. *)
Theorem hard_failures_propagate w :
  (forall query (DB_ENGINE : Engine DbState) e,
     eng_connect DB_ENGINE = None ->
     st_result (eng_execute DB_ENGINE query (db w) (db w)) = inl e ->
     fst (execute_sql_tool query DB_ENGINE w) = Raise e)
  /\
  (forall table_name (DB_ENGINE : Engine DbState) inspector e,
     eng_inspect DB_ENGINE (db w) = inr inspector ->
     insp_get_columns inspector table_name = inl e ->
     fst (get_table_schema_tool table_name DB_ENGINE w) = Raise e)
  /\
  (forall (RAG_collection : RAG) query result d,
     rag_invoke RAG_collection query = inr result ->
     run_final_state result = PDict d ->
     lookup "answer" d = None ->
     fst (search_collection RAG_collection query w) = Raise (mkExn KeyError "'answer'")).
Proof.
  split; [|split].
  - intros query DB_ENGINE e Hconn Hexec.
    pose proof (execute_sql_tool_run query DB_ENGINE w) as Hrun.
    unfold observe, execute_sql_tool_paths in Hrun. rewrite Hconn in Hrun.
    cbv zeta in Hrun. rewrite Hexec in Hrun. now inversion Hrun.
  - intros table_name DB_ENGINE inspector e Hinsp Hcols.
    now rewrite get_table_schema_tool_run, Hinsp, Hcols.
  - intros RAG_collection query result d Hinv Hstate Hmiss.
    rewrite search_collection_run, Hinv, Hstate. simpl. now rewrite Hmiss.
Qed.

(** C4.  Where the code departs from the claim.  The scope opened by
    [Engine.begin()] commits only when its body returns, and the body
    fetches the rows of every result.  For a statement that runs but whose
    result has no rows to fetch (a plain INSERT, UPDATE or DELETE),
    [fetchall] raises, the scope ends with a rollback and not a commit,
    and the call raises: the committed contents are the ones the engine
    left outside the transaction, so a write kept inside the transaction
    has not taken effect. *)
Theorem execute_sql_tool_rolls_back_rowless_statement
    query (DB_ENGINE : Engine DbState) w result e :
  eng_connect DB_ENGINE = None ->
  st_result (eng_execute DB_ENGINE query (db w) (db w)) = inr result ->
  cursor_fetchall result = inl e ->
  observe (execute_sql_tool query DB_ENGINE w) =
    (Raise e,
     (log w ++ [DbConnect; DbBegin; DbExecute query; DbFetchall;
                DbRollback; DbClose])%list,
     st_committed (eng_execute DB_ENGINE query (db w) (db w)),
     None)
  /\
  (st_committed (eng_execute DB_ENGINE query (db w) (db w)) = db w ->
   db (snd (execute_sql_tool query DB_ENGINE w)) = db w).
Proof.
  intros Hconn Hexec Hfetch.
  pose proof (execute_sql_tool_run query DB_ENGINE w) as Hrun.
  unfold execute_sql_tool_paths in Hrun. cbv zeta in Hrun.
  rewrite Hconn, Hexec, Hfetch, <- app_assoc in Hrun. simpl in Hrun.
  split; [exact Hrun|].
  intros Hinside. unfold observe in Hrun.
  injection Hrun as _ _ Hdb _. congruence.
Qed.

(** X19.  The transactional scope of [execute_sql_tool].  When the
    connection cannot be obtained no scope is opened.  Otherwise the log of the call
    is: connect, begin, execute, possibly fetch, then commit or rollback,
    then close; the scope ends with a commit exactly when the call
    returns, and then the working contents of the transaction are the
    committed ones; it ends with a rollback when execution, fetching or
    the commit raises, and then the committed contents are the ones the
    engine left outside the transaction; no transaction stays open. *)
Theorem execute_sql_tool_scope_released query (DB_ENGINE : Engine DbState) w :
  let r := execute_sql_tool query DB_ENGINE w in
  let x := eng_execute DB_ENGINE query (db w) (db w) in
  (forall e, eng_connect DB_ENGINE = Some e ->
     fst r = Raise e /\ log (snd r) = (log w ++ [DbConnect])%list /\
     db (snd r) = db w /\ txn (snd r) = txn w)
  /\
  (eng_connect DB_ENGINE = None ->
     (exists inside ending,
        log (snd r) =
          (log w ++ [DbConnect; DbBegin; DbExecute query] ++ inside
                 ++ [ending; DbClose])%list /\
        (inside = [] \/ inside = [DbFetchall]) /\
        (ending = DbCommit \/ ending = DbRollback) /\
        (ending = DbCommit <-> exists v, fst r = Ret v) /\
        (ending = DbCommit -> db (snd r) = st_working x) /\
        (ending = DbRollback -> db (snd r) = st_committed x)) /\
     txn (snd r) = None /\
     (forall result rows,
        st_result x = inr result ->
        cursor_fetchall result = inr rows ->
        eng_commit DB_ENGINE (st_working x) = None ->
        fst r = Ret (PStr (str (PList rows))) /\ db (snd r) = st_working x) /\
     (forall e,
        st_result x = inl e ->
        fst r = Raise e /\ db (snd r) = st_committed x) /\
     (forall result e,
        st_result x = inr result ->
        cursor_fetchall result = inl e ->
        fst r = Raise e /\ db (snd r) = st_committed x)).
Proof.
  intros r x.
  pose proof (execute_sql_tool_run query DB_ENGINE w) as Hrun.
  fold r in Hrun. unfold observe, execute_sql_tool_paths in Hrun.
  cbv zeta in Hrun. fold x in Hrun.
  split.
  - intros e He. rewrite He in Hrun.
    injection Hrun as Hout Hlog Hdb Htxn. auto.
  - intros Hconn. rewrite Hconn in Hrun.
    clearbody x. destruct x as [[e|result] c' s']; simpl in *.
    + injection Hrun as Hout Hlog Hdb Htxn.
      rewrite Hout, Hlog, Hdb, Htxn.
      split; [|split; [reflexivity|split; [|split]]].
      * exists [], DbRollback. rewrite <- app_assoc. simpl.
        repeat split; auto; try discriminate.
        intros [v Hv]. discriminate.
      * intros ? ? [=].
      * intros e' [= <-]. now split.
      * intros ? ? [=].
    + destruct (cursor_fetchall result) as [e|rows] eqn:Hfetch.
      * injection Hrun as Hout Hlog Hdb Htxn.
        rewrite Hout, Hlog, Hdb, Htxn.
        split; [|split; [reflexivity|split; [|split]]].
        -- exists [DbFetchall], DbRollback. rewrite <- app_assoc. simpl.
           repeat split; auto; try discriminate.
           intros [v Hv]. discriminate.
        -- intros ? ? [= <-]. rewrite Hfetch. discriminate.
        -- intros ? [=].
        -- intros ? ? [= <-]. rewrite Hfetch. intros [= <-]. now split.
      * destruct (eng_commit DB_ENGINE s') as [e|] eqn:Hcommit.
        -- injection Hrun as Hout Hlog Hdb Htxn.
           rewrite Hout, Hlog, Hdb, Htxn.
           split; [|split; [reflexivity|split; [|split]]].
           ++ exists [DbFetchall], DbRollback. rewrite <- app_assoc. simpl.
              repeat split; auto; try discriminate.
              intros [v Hv]. discriminate.
           ++ intros ? ? _ _ [=].
           ++ intros ? [=].
           ++ intros ? ? [= <-]. rewrite Hfetch. discriminate.
        -- injection Hrun as Hout Hlog Hdb Htxn.
           rewrite Hout, Hlog, Hdb, Htxn.
           split; [|split; [reflexivity|split; [|split]]].
           ++ exists [DbFetchall], DbCommit. rewrite <- app_assoc. simpl.
              repeat split; auto; try discriminate.
              intros _. eexists; reflexivity.
           ++ intros ? ? [= <-]. rewrite Hfetch. intros [= <-] _. now split.
           ++ intros ? [=].
           ++ intros ? ? [= <-]. rewrite Hfetch. discriminate.
Qed.

Lemma repr_column_dict (c : column) : repr (column_dict c) = render_column c.
Proof.
  destruct c as [n t nullable d pk]. unfold render_column. simpl.
  repeat (rewrite !append_assoc; simpl).
  now destruct nullable.
Qed.

Lemma repr_column_list (cols : list column) :
  repr (PList (map column_dict cols)) = render_columns cols.
Proof.
  unfold render_columns. simpl. rewrite map_map.
  now rewrite (map_ext _ _ repr_column_dict).
Qed.

(** C8.  For a table whose columns the inspector reports as the
    descriptors [cols], [get_table_schema_tool] returns the text listing
    the columns in the table's order, each with the five fields name,
    type, nullable, default, primary_key, in that order. *)
Theorem get_table_schema_tool_renders_columns
    table_name (DB_ENGINE : Engine DbState) w inspector (cols : list column) :
  eng_inspect DB_ENGINE (db w) = inr inspector ->
  insp_get_columns inspector table_name = inr (PList (map column_dict cols)) ->
  get_table_schema_tool table_name DB_ENGINE w =
  (Ret (PStr (render_columns cols)), logged [DbInspect; DbGetColumns table_name] w).
Proof.
  intros Hinsp Hcols.
  rewrite get_table_schema_tool_run, Hinsp, Hcols.
  unfold str. now rewrite repr_column_list.
Qed.

(** C9.  When the pipeline ends in a state mapping that binds "answer" to
    [v], [search_collection] invokes the pipeline once, to its end, and
    returns [v] itself, nothing else of the state. *)
Theorem search_collection_returns_answer (RAG_collection : RAG) query w result d v :
  rag_invoke RAG_collection query = inr result ->
  run_final_state result = PDict d ->
  lookup "answer" d = Some v ->
  search_collection RAG_collection query w = (Ret v, logged [RagInvoke query] w).
Proof.
  intros Hinv Hstate Hans.
  rewrite search_collection_run, Hinv, Hstate. simpl. now rewrite Hans.
Qed.

(** *** Web search *)

Lemma web_search_run query search_depth w client d :
  new_TavilyClient w (os_getenv w "TAVILY_API_KEY") = inr client ->
  client_search client (mkSearchArgs query search_depth true false false) = inr (PDict d) ->
  web_search query search_depth w =
  (Ret (PDict
          [("answer", match lookup "answer" d with Some x => x | None => PStr "" end);
           ("results", match lookup "results" d with Some x => x | None => PList [] end);
           ("search_metadata",
            PDict [("timestamp",
                    PStr (Datetime.isoformat (datetime_now w (List.length (log w) + 2))));
                   ("query", PStr query)])]),
   logged [Getenv "TAVILY_API_KEY";
           TavilySearch (mkSearchArgs query search_depth true false false);
           ClockRead] w).
Proof.
  intros Hclient Hsearch.
  unfold web_search, getenv, TavilyClient_new, search, now, bind, emit, ask, lift,
    raise, ret, logged, set_log.
  simpl. rewrite Hclient. simpl. rewrite Hsearch. simpl.
  destruct (lookup "answer" d); destruct (lookup "results" d); simpl;
    rewrite <- !app_assoc, !length_app; reflexivity.
Qed.

(** C6.  When the provider's response is a mapping without the field
    "answer", the value [web_search] returns binds "answer" to the empty
    string. *)
Theorem web_search_answer_defaults_to_empty query search_depth w client d :
  new_TavilyClient w (os_getenv w "TAVILY_API_KEY") = inr client ->
  client_search client (mkSearchArgs query search_depth true false false) = inr (PDict d) ->
  lookup "answer" d = None ->
  exists v,
    fst (web_search query search_depth w) = Ret v /\
    getitem v "answer" = inr (PStr "").
Proof.
  intros Hclient Hsearch Hmiss.
  rewrite (web_search_run _ _ _ _ _ Hclient Hsearch), Hmiss.
  eexists. split; reflexivity.
Qed.

(** C7.  The value [web_search] returns has a "search_metadata" mapping
    whose "query" is the input query and whose "timestamp" is the
    [isoformat] of the adapter's own clock, read at an instant after the
    call started (the read is the third event of the call, after the
    provider answered); the text is a well-formed ISO-8601 timestamp, and
    nothing of the provider's response [d] enters it. *)
Theorem web_search_metadata query search_depth w client d :
  new_TavilyClient w (os_getenv w "TAVILY_API_KEY") = inr client ->
  client_search client (mkSearchArgs query search_depth true false false) = inr (PDict d) ->
  exists v meta t,
    fst (web_search query search_depth w) = Ret v /\
    getitem v "search_metadata" = inr meta /\
    getitem meta "query" = inr (PStr query) /\
    getitem meta "timestamp" = inr (PStr (Datetime.isoformat (datetime_now w t))) /\
    List.length (log w) < t /\
    nth_error (log (snd (web_search query search_depth w))) t = Some ClockRead /\
    Datetime.parse_iso8601 (Datetime.isoformat (datetime_now w t)) =
      Some (Datetime.dt_fields (datetime_now w t)) /\
    Datetime.is_iso8601 (Datetime.isoformat (datetime_now w t)) = true.
Proof.
  intros Hclient Hsearch.
  rewrite (web_search_run _ _ _ _ _ Hclient Hsearch).
  eexists. eexists. exists (List.length (log w) + 2).
  split; [reflexivity|]. split; [reflexivity|]. split; [reflexivity|].
  split; [reflexivity|]. split; [lia|]. split.
  - simpl.
    change (log w ++ [Getenv "TAVILY_API_KEY";
                       TavilySearch (mkSearchArgs query search_depth true false false);
                       ClockRead])%list
      with (log w ++ [Getenv "TAVILY_API_KEY"] ++
              [TavilySearch (mkSearchArgs query search_depth true false false)] ++
              [ClockRead])%list.
    rewrite !app_assoc.
    rewrite nth_error_app2 by (rewrite !length_app; simpl; lia).
    rewrite !length_app. simpl.
    now replace (List.length (log w) + 2 - (List.length (log w) + 1 + 1)) with 0 by lia.
  - apply isoformat_is_iso8601.
Qed.

(** *** The tool descriptor *)

Lemma first_unexpected_found (schema : list (param DbState)) kwargs k :
  unexpected_extra schema kwargs k ->
  exists k', first_unexpected schema kwargs = Some k'.
Proof.
  intros [[a Hin] Hundeclared].
  induction kwargs as [|[k0 a0] rest IH]; [contradiction|].
  simpl. destruct (declares schema k0) eqn:Hdecl; [|eauto].
  destruct Hin as [[= -> ->]|Hin]; [congruence|auto].
Qed.

Lemma bind_arguments_descriptive name (schema : list (param DbState)) kwargs msg :
  bind_arguments name schema kwargs = inl msg -> descriptive name msg.
Proof.
  revert msg. induction schema as [|p rest IH]; intros msg; simpl; [discriminate|].
  destruct (lookup_arg (p_name p) kwargs) as [a|].
  - destruct (has_type a (p_type p)).
    + destruct (bind_arguments name rest kwargs); [|discriminate].
      intros [= <-]. now apply IH.
    + intros [= <-]. exists "argument ", (p_name p), " has an unexpected type".
      reflexivity.
  - destruct (p_default p).
    + destruct (bind_arguments name rest kwargs); [|discriminate].
      intros [= <-]. now apply IH.
    + intros [= <-]. exists "missing required argument: ", (p_name p), "".
      reflexivity.
Qed.

Lemma bind_arguments_missing name (schema : list (param DbState)) kwargs k :
  missing_required schema kwargs k ->
  exists msg, bind_arguments name schema kwargs = inl msg.
Proof.
  intros (p & Hin & Hname & Hdefault & Hlookup).
  induction schema as [|p0 rest IH]; [contradiction|].
  simpl. destruct Hin as [->|Hin].
  - rewrite Hname, Hlookup, Hdefault. eauto.
  - destruct (IH Hin) as [msg Hmsg]. rewrite Hmsg.
    destruct (lookup_arg (p_name p0) kwargs) as [a|].
    + destruct (has_type a (p_type p0)); eauto.
    + destruct (p_default p0); eauto.
Qed.

Lemma invoke_tool_call_shape (t : Tool DbState) kwargs k w :
  missing_required (tool_schema t) kwargs k \/
  unexpected_extra (tool_schema t) kwargs k ->
  exists msg,
    invoke_tool t kwargs w = (Raise (mkExn ToolCallError msg), w) /\
    descriptive (tool_name t) msg.
Proof.
  intros Hshape. unfold invoke_tool.
  destruct (first_unexpected (tool_schema t) kwargs) as [k'|] eqn:Hextra.
  - eexists. split; [reflexivity|].
    exists "got an unexpected keyword argument ", k', "". reflexivity.
  - destruct Hshape as [Hmissing|Hunexpected].
    + destruct (bind_arguments_missing (tool_name t) _ _ _ Hmissing) as [msg Hmsg].
      rewrite Hmsg. exists msg. split; [reflexivity|].
      eapply bind_arguments_descriptive; eauto.
    + destruct (first_unexpected_found _ _ _ Hunexpected) as [k' Hk'].
      congruence.
Qed.

(** C1.  Invoking a registered tool without one of its required
    parameters, or with a keyword its schema does not declare, raises a
    call-shape error whose message names the tool and quotes a parameter;
    the world comes back as it was: nothing was logged, no backend was
    reached. *)
Theorem call_shape_error_before_backend (t : Tool DbState) kwargs k w :
  In t registry ->
  missing_required (tool_schema t) kwargs k \/
  unexpected_extra (tool_schema t) kwargs k ->
  exists msg,
    invoke_tool t kwargs w = (Raise (mkExn ToolCallError msg), w) /\
    descriptive (tool_name t) msg /\
    log (snd (invoke_tool t kwargs w)) = log w.
Proof.
  intros _ Hshape.
  destruct (invoke_tool_call_shape t kwargs k w Hshape) as (msg & Hrun & Hmsg).
  exists msg. rewrite Hrun. auto.
Qed.

End Facts.

(* ================================================================== *)
(** ** The adapters on the concrete world *)
(* ================================================================== *)


(** C5 as stated fails: a success status with a body that is not JSON.
    No decoded body exists, and the adapter returns an error string
    (newer client) or raises (older client), in neither case the body. *)
Lemma http_adapters_return_parsed_body_counterexample :
  request_succeeded (requests_get Demo.world0 "http://api.test/page")
    (inl (mkExn RequestsJSONDecodeError "Expecting value: line 1 column 1 (char 0)"))
  /\
  fst (GET_request "http://api.test/page" Demo.world0) =
    Ret (PStr "An error occurred: Expecting value: line 1 column 1 (char 0)")
  /\
  ~ (exists v : pyval,
       request_succeeded (requests_get Demo.world0 "http://api.test/page") (inr v) /\
       fst (GET_request "http://api.test/page" Demo.world0) = Ret v).
Proof.
  split; [split; reflexivity|].
  split; [reflexivity|].
  intros [v [[_ Hjson] _]]. discriminate Hjson.
Qed.

(** The amended C5 on a JSON body. *)
Lemma http_adapters_return_parsed_body_witness :
  fst (GET_request "http://api.test/game/7" Demo.world0) = Ret (PList [PInt 7; PInt 8])
  /\
  fst (POST_request "http://api.test/game/7" (PDict []) Demo.world0) = Ret (PList [PInt 7; PInt 8]).
Proof.
  pose proof (http_adapters_return_parsed_body Demo.world0 "http://api.test/game/7"
    (PDict []) (PList [PInt 7; PInt 8])) as [Hget Hpost].
  split.
  - rewrite Hget; [reflexivity|]. split; reflexivity.
  - rewrite Hpost; [reflexivity|]. split; reflexivity.
Defined.

(** C10 as stated fails: the decoding error of [requests] 2.27 and later is
    itself a [RequestException]; it is caught and nothing escapes. *)
Lemma http_adapters_undecodable_body_counterexample :
  request_succeeded (requests_get Demo.world0 "http://api.test/page")
    (inl (mkExn RequestsJSONDecodeError "Expecting value: line 1 column 1 (char 0)"))
  /\
  isinstance (mkExn RequestsJSONDecodeError "Expecting value: line 1 column 1 (char 0)")
    RequestException = true
  /\
  fst (GET_request "http://api.test/page" Demo.world0) =
    Ret (PStr "An error occurred: Expecting value: line 1 column 1 (char 0)")
  /\
  fst (POST_request "http://api.test/page" (PDict []) Demo.world0) =
    Ret (PStr "An error occurred: Expecting value: line 1 column 1 (char 0)")
  /\
  ~ (exists e : exn, fst (GET_request "http://api.test/page" Demo.world0) = Raise e).
Proof.
  split; [split; reflexivity|].
  do 3 (split; [reflexivity|]).
  intros [e He]. discriminate He.
Qed.

(** The amended C10 on both kinds of decoding error. *)
Lemma http_adapters_undecodable_body_witness :
  fst (GET_request "http://api.test/legacy" Demo.world0) =
    Raise (mkExn JSONDecodeError "Expecting value: line 1 column 1 (char 0)")
  /\
  fst (POST_request "http://api.test/page" (PDict []) Demo.world0) =
    Ret (PStr "An error occurred: Expecting value: line 1 column 1 (char 0)").
Proof.
  split.
  - rewrite (proj1 (http_adapters_undecodable_body Demo.world0 "http://api.test/legacy"
      (PDict []) (mkExn JSONDecodeError "Expecting value: line 1 column 1 (char 0)")));
      [reflexivity|]. split; reflexivity.
  - rewrite (proj2 (http_adapters_undecodable_body Demo.world0 "http://api.test/page"
      (PDict []) (mkExn RequestsJSONDecodeError "Expecting value: line 1 column 1 (char 0)")));
      [reflexivity|]. split; reflexivity.
Defined.

(** C1 on a call of [GET_request] with a keyword it does not declare. *)
Lemma call_shape_error_before_backend_witness :
  exists msg,
    invoke_tool tool_GET_request
      [("url", AVal (PStr "http://api.test/game/7")); ("verbose", AVal (PBool true))]
      Demo.world0
    = (Raise (mkExn ToolCallError msg), Demo.world0) /\
    descriptive "GET_request" msg /\
    log (snd (invoke_tool tool_GET_request
                [("url", AVal (PStr "http://api.test/game/7"));
                 ("verbose", AVal (PBool true))]
                Demo.world0)) = [].
Proof.
  apply (call_shape_error_before_backend tool_GET_request
           [("url", AVal (PStr "http://api.test/game/7")); ("verbose", AVal (PBool true))]
           "verbose" Demo.world0).
  - simpl. left. reflexivity.
  - right. split.
    + exists (AVal (PBool true)). simpl. right. left. reflexivity.
    + reflexivity.
Defined.

(** C3 on a malformed statement, an unknown table and a terminal state
    without "answer". *)
Lemma hard_failures_propagate_witness :
  fst (execute_sql_tool "SELEC name FROM games" Demo.engine Demo.world0) =
    Raise (mkExn OperationalError "(sqlite3.OperationalError) syntax error")
  /\
  fst (get_table_schema_tool "players" Demo.engine Demo.world0) =
    Raise (mkExn NoSuchTableError "players")
  /\
  fst (search_collection Demo.pipeline "who made Halo" Demo.world0) =
    Raise (mkExn KeyError "'answer'").
Proof.
  destruct (hard_failures_propagate Demo.world0) as (Hsql & Hschema & Hrag).
  split; [|split].
  - apply Hsql; reflexivity.
  - apply (Hschema "players" Demo.engine Demo.inspector); reflexivity.
  - apply (Hrag Demo.pipeline "who made Halo"
             (mkRun (PDict [("sources", PList [])])) [("sources", PList [])]);
      reflexivity.
Defined.

(** C4 at the failing input: a plain INSERT runs, its result has no rows,
    [fetchall] raises and the scope is rolled back; the row that the
    transaction held is not in the committed contents.  On an engine in
    autocommit mode the call raises all the same. *)
Lemma execute_sql_tool_rolls_back_rowless_statement_witness :
  (observe (execute_sql_tool "INSERT INTO games (name) VALUES ('Halo')"
              Demo.engine Demo.world0) =
     (Raise (mkExn ResourceClosedError
               "This result object does not return rows. It has been closed automatically."),
      [DbConnect; DbBegin; DbExecute "INSERT INTO games (name) VALUES ('Halo')";
       DbFetchall; DbRollback; DbClose],
      [], None)
   /\
   st_working (eng_execute Demo.engine "INSERT INTO games (name) VALUES ('Halo')" [] []) =
     [Demo.halo])
  /\
  fst (execute_sql_tool "INSERT INTO games (name) VALUES ('Halo')"
         Demo.autocommit_engine Demo.world0) =
    Raise (mkExn ResourceClosedError
             "This result object does not return rows. It has been closed automatically.").
Proof.
  split; [split; [|reflexivity]|].
  - apply (proj1 (execute_sql_tool_rolls_back_rowless_statement
                    "INSERT INTO games (name) VALUES ('Halo')"
                    Demo.engine Demo.world0 Demo.closed_result
                    (mkExn ResourceClosedError
                       "This result object does not return rows. It has been closed automatically.")
                    eq_refl eq_refl eq_refl)).
  - pose proof (proj1 (execute_sql_tool_rolls_back_rowless_statement
                    "INSERT INTO games (name) VALUES ('Halo')"
                    Demo.autocommit_engine Demo.world0 Demo.closed_result
                    (mkExn ResourceClosedError
                       "This result object does not return rows. It has been closed automatically.")
                    eq_refl eq_refl eq_refl)) as Hrun.
    exact (f_equal (fun t => fst (fst (fst t))) Hrun).
Defined.

(** X19 on a statement that returns rows (committed), on one whose
    result has no rows to fetch (rolled back) and on an engine that
    cannot connect (no scope). *)
Lemma execute_sql_tool_scope_released_witness :
  (fst (execute_sql_tool "INSERT INTO games (name) VALUES ('Halo') RETURNING name"
          Demo.engine Demo.world0) = Ret (PStr "[('Halo',)]")
   /\
   db (snd (execute_sql_tool "INSERT INTO games (name) VALUES ('Halo') RETURNING name"
              Demo.engine Demo.world0)) = [Demo.halo]
   /\
   txn (snd (execute_sql_tool "INSERT INTO games (name) VALUES ('Halo') RETURNING name"
               Demo.engine Demo.world0)) = None)
  /\
  (fst (execute_sql_tool "INSERT INTO games (name) VALUES ('Halo')"
          Demo.engine Demo.world0) =
     Raise (mkExn ResourceClosedError
              "This result object does not return rows. It has been closed automatically.")
   /\
   txn (snd (execute_sql_tool "INSERT INTO games (name) VALUES ('Halo')"
               Demo.engine Demo.world0)) = None)
  /\
  fst (execute_sql_tool "SELECT name FROM games" Demo.unreachable_engine Demo.world0) =
    Raise (mkExn OperationalError "unable to open database file").
Proof.
  split; [|split].
  - destruct (execute_sql_tool_scope_released
                "INSERT INTO games (name) VALUES ('Halo') RETURNING name"
                Demo.engine Demo.world0) as [_ Hscope].
    destruct (Hscope eq_refl) as (_ & Hreleased & Hcommit & _ & _).
    destruct (Hcommit (mkCursor (inr [Demo.halo])) [Demo.halo] eq_refl eq_refl eq_refl)
      as [Hout Hdb].
    split; [exact Hout|]. split; [exact Hdb|exact Hreleased].
  - destruct (execute_sql_tool_scope_released
                "INSERT INTO games (name) VALUES ('Halo')"
                Demo.engine Demo.world0) as [_ Hscope].
    destruct (Hscope eq_refl) as (_ & Hreleased & _ & _ & Hfetch).
    destruct (Hfetch Demo.closed_result _ eq_refl eq_refl) as [Hout _].
    split; [exact Hout|exact Hreleased].
  - destruct (execute_sql_tool_scope_released "SELECT name FROM games"
                Demo.unreachable_engine Demo.world0) as [Hfail _].
    destruct (Hfail _ eq_refl) as [Hout _]. exact Hout.
Defined.

(** C6 on a provider reply without "answer". *)
Lemma web_search_answer_defaults_to_empty_witness :
  exists v,
    fst (web_search "best rpg 2023" "advanced" Demo.world0) = Ret v /\
    getitem v "answer" = inr (PStr "").
Proof.
  apply (web_search_answer_defaults_to_empty "best rpg 2023" "advanced" Demo.world0
           Demo.client
           [("query", PStr "best rpg 2023");
            ("results", PList [PDict [("title", PStr "Baldur's Gate 3")]]);
            ("timestamp", PStr "1999-12-31T23:59:59")]);
    reflexivity.
Defined.

(** C7 on a provider reply that carries a timestamp of its own. *)
Lemma web_search_metadata_witness :
  exists v meta t,
    fst (web_search "best rpg 2023" "advanced" Demo.world0) = Ret v /\
    getitem v "search_metadata" = inr meta /\
    getitem meta "query" = inr (PStr "best rpg 2023") /\
    getitem meta "timestamp" =
      inr (PStr (Datetime.isoformat (datetime_now Demo.world0 t))) /\
    List.length (log Demo.world0) < t /\
    nth_error (log (snd (web_search "best rpg 2023" "advanced" Demo.world0))) t =
      Some ClockRead /\
    Datetime.parse_iso8601 (Datetime.isoformat (datetime_now Demo.world0 t)) =
      Some (Datetime.dt_fields (datetime_now Demo.world0 t)) /\
    Datetime.is_iso8601 (Datetime.isoformat (datetime_now Demo.world0 t)) = true.
Proof.
  apply (web_search_metadata "best rpg 2023" "advanced" Demo.world0 Demo.client
           [("query", PStr "best rpg 2023");
            ("results", PList [PDict [("title", PStr "Baldur's Gate 3")]]);
            ("timestamp", PStr "1999-12-31T23:59:59")]);
    reflexivity.
Defined.

(** C8 on [games (id INTEGER PRIMARY KEY, name TEXT NOT NULL)]. *)
Lemma get_table_schema_tool_renders_columns_witness :
  fst (get_table_schema_tool "games" Demo.engine Demo.world0) =
  Ret (PStr "[{'name': 'id', 'type': INTEGER(), 'nullable': True, 'default': None, 'primary_key': 1}, {'name': 'name', 'type': TEXT(), 'nullable': False, 'default': None, 'primary_key': 0}]").
Proof.
  rewrite (get_table_schema_tool_renders_columns "games" Demo.engine Demo.world0
             Demo.inspector Demo.games_schema eq_refl eq_refl).
  reflexivity.
Defined.

(** C9 on the terminal state [{"answer": "42", "sources": [...]}]. *)
Lemma search_collection_returns_answer_witness :
  search_collection Demo.pipeline "answer to everything" Demo.world0 =
  (Ret (PStr "42"), logged [RagInvoke "answer to everything"] Demo.world0).
Proof.
  apply (search_collection_returns_answer Demo.pipeline "answer to everything"
           Demo.world0
           (mkRun (PDict [("answer", PStr "42"); ("sources", PList [PStr "doc1"])]))
           [("answer", PStr "42"); ("sources", PList [PStr "doc1"])]);
    reflexivity.
Defined.

(* ================================================================== *)
(** ** Further properties of the adapters *)
(* ================================================================== *)

Section MoreFacts.

Context {DbState : Type}.
Implicit Types (w : world DbState) (e : exn) (url query : string).

(** *** HTTP adapters *)

(** X1.  Whatever the answer, [GET_request] and [POST_request] send
    exactly one request (no retry) and touch neither the database nor a
    transaction. *)
Theorem http_adapters_send_one_request w url (data : pyval) :
  (log (snd (GET_request url w)) = (log w ++ [HttpGet url])%list /\
   db (snd (GET_request url w)) = db w /\
   txn (snd (GET_request url w)) = txn w)
  /\
  (log (snd (POST_request url data w)) = (log w ++ [HttpPost url data])%list /\
   db (snd (POST_request url data w)) = db w /\
   txn (snd (POST_request url data w)) = txn w).
Proof.
  rewrite GET_request_run, POST_request_run. simpl. auto.
Qed.

(** X2.  The outcome of an HTTP adapter depends on the world only through
    the answer to its request: two worlds that answer alike give the same
    outcome, whatever their logs and databases. *)
Theorem http_outcome_from_answer_only w1 w2 url (data : pyval) :
  (requests_get w1 url = requests_get w2 url ->
   fst (GET_request url w1) = fst (GET_request url w2))
  /\
  (requests_post w1 url data = requests_post w2 url data ->
   fst (POST_request url data w1) = fst (POST_request url data w2)).
Proof.
  split; intros Hsame.
  - rewrite !GET_request_run. simpl. now rewrite Hsame.
  - rewrite !POST_request_run. simpl. now rewrite Hsame.
Qed.

Lemma soften_raise_not_request_exception (o : outcome pyval) e :
  soften o = Raise e -> isinstance e RequestException = false.
Proof.
  destruct o as [v|e0]; simpl; [discriminate|].
  destruct (isinstance e0 RequestException) eqn:Hinst; [discriminate|].
  now intros [= <-].
Qed.

(** X3.  No [RequestException] ever leaves an HTTP adapter: an exception
    that [GET_request] or [POST_request] raises is not an instance of
    that class. *)
Theorem http_adapters_never_raise_request_exception w url (data : pyval) e :
  (fst (GET_request url w) = Raise e -> isinstance e RequestException = false)
  /\
  (fst (POST_request url data w) = Raise e -> isinstance e RequestException = false).
Proof.
  rewrite GET_request_run, POST_request_run. simpl.
  split; apply soften_raise_not_request_exception.
Qed.

(** X4.  An exception of the client that is not a [RequestException]
    (raised by the request itself) is not softened: it leaves the adapter
    as it is. *)
Theorem http_adapters_let_other_exceptions_escape w url (data : pyval) e :
  isinstance e RequestException = false ->
  (requests_get w url = Requests.Raised e ->
   GET_request url w = (Raise e, logged [HttpGet url] w))
  /\
  (requests_post w url data = Requests.Raised e ->
   POST_request url data w = (Raise e, logged [HttpPost url data] w)).
Proof.
  intros Hother. split; intros Hraised.
  - rewrite GET_request_run, Hraised. simpl. now rewrite Hother.
  - rewrite POST_request_run, Hraised. simpl. now rewrite Hother.
Qed.

(** *** Database introspection *)

Lemma list_tables_tool_run (DB_ENGINE : Engine DbState) w :
  list_tables_tool DB_ENGINE w =
  match eng_inspect DB_ENGINE (db w) with
  | inl e => (Raise e, logged [DbInspect] w)
  | inr inspector =>
      match insp_get_table_names inspector with
      | inl e => (Raise e, logged [DbInspect; DbGetTableNames] w)
      | inr names =>
          (Ret (PList (map PStr names)), logged [DbInspect; DbGetTableNames] w)
      end
  end.
Proof.
  unfold list_tables_tool, sqlalchemy_inspect, get_table_names, bind, emit, ask,
    lift, raise, ret, logged, set_log.
  simpl.
  destruct (eng_inspect DB_ENGINE (db w)) as [e|inspector]; simpl; [reflexivity|].
  destruct (insp_get_table_names inspector) as [e|names]; simpl;
    now rewrite <- app_assoc.
Qed.

(** X5.  [list_tables_tool] returns the table names the inspector
    reports, as many and in the same order, each as a string. *)
Theorem list_tables_tool_lists_names (DB_ENGINE : Engine DbState) w inspector names :
  eng_inspect DB_ENGINE (db w) = inr inspector ->
  insp_get_table_names inspector = inr names ->
  exists l,
    list_tables_tool DB_ENGINE w =
      (Ret (PList l), logged [DbInspect; DbGetTableNames] w) /\
    List.length l = List.length names /\
    forall i, nth_error l i = option_map PStr (nth_error names i).
Proof.
  intros Hinsp Hnames. exists (map PStr names).
  rewrite list_tables_tool_run, Hinsp, Hnames.
  split; [reflexivity|]. split; [apply length_map|].
  intros i. apply nth_error_map.
Qed.

(** X6.  When the inspector cannot be obtained, [list_tables_tool] and
    [get_table_schema_tool] raise the engine's error and ask nothing
    further; when the inspector fails to list the tables,
    [list_tables_tool] raises that error. *)
Theorem introspection_errors_propagate (DB_ENGINE : Engine DbState) w e :
  (eng_inspect DB_ENGINE (db w) = inl e ->
   list_tables_tool DB_ENGINE w = (Raise e, logged [DbInspect] w) /\
   forall table_name,
     get_table_schema_tool table_name DB_ENGINE w = (Raise e, logged [DbInspect] w))
  /\
  (forall inspector,
     eng_inspect DB_ENGINE (db w) = inr inspector ->
     insp_get_table_names inspector = inl e ->
     list_tables_tool DB_ENGINE w = (Raise e, logged [DbInspect; DbGetTableNames] w)).
Proof.
  split.
  - intros Hinsp. split.
    + now rewrite list_tables_tool_run, Hinsp.
    + intros table_name. now rewrite get_table_schema_tool_run, Hinsp.
  - intros inspector Hinsp Hnames.
    now rewrite list_tables_tool_run, Hinsp, Hnames.
Qed.

(** X7.  Introspection is read-only: [list_tables_tool] and
    [get_table_schema_tool] neither change the committed contents nor
    open a transaction, whether they return or raise. *)
Theorem introspection_is_read_only (DB_ENGINE : Engine DbState) w table_name :
  (db (snd (list_tables_tool DB_ENGINE w)) = db w /\
   txn (snd (list_tables_tool DB_ENGINE w)) = txn w)
  /\
  (db (snd (get_table_schema_tool table_name DB_ENGINE w)) = db w /\
   txn (snd (get_table_schema_tool table_name DB_ENGINE w)) = txn w).
Proof.
  rewrite list_tables_tool_run, get_table_schema_tool_run.
  destruct (eng_inspect DB_ENGINE (db w)) as [e|inspector]; simpl; [auto|].
  destruct (insp_get_table_names inspector);
    destruct (insp_get_columns inspector table_name); simpl; auto.
Qed.

(** *** Web search *)

Lemma web_search_paths query search_depth w :
  web_search query search_depth w =
  let args := mkSearchArgs query search_depth true false false in
  match new_TavilyClient w (os_getenv w "TAVILY_API_KEY") with
  | inl e => (Raise e, logged [Getenv "TAVILY_API_KEY"] w)
  | inr client =>
      match client_search client args with
      | inl e => (Raise e, logged [Getenv "TAVILY_API_KEY"; TavilySearch args] w)
      | inr search_result =>
          match dict_get search_result "answer" (PStr ""),
                dict_get search_result "results" (PList []) with
          | inr answer, inr results =>
              (Ret (PDict
                      [("answer", answer);
                       ("results", results);
                       ("search_metadata",
                        PDict [("timestamp",
                                PStr (Datetime.isoformat
                                        (datetime_now w (List.length (log w) + 2))));
                               ("query", PStr query)])]),
               logged [Getenv "TAVILY_API_KEY"; TavilySearch args; ClockRead] w)
          | inl e, _ | inr _, inl e =>
              (Raise e, logged [Getenv "TAVILY_API_KEY"; TavilySearch args] w)
          end
      end
  end.
Proof.
  unfold web_search, getenv, TavilyClient_new, search, now, bind, emit, ask, lift,
    raise, ret, logged, set_log.
  simpl.
  destruct (new_TavilyClient w (os_getenv w "TAVILY_API_KEY")) as [e|client];
    simpl; [reflexivity|].
  destruct (client_search client _) as [e|search_result]; simpl;
    [now rewrite <- app_assoc|].
  destruct (dict_get search_result "answer" (PStr "")) as [e|answer]; simpl;
    [now rewrite <- app_assoc|].
  destruct (dict_get search_result "results" (PList [])) as [e|results]; simpl;
    [now rewrite <- app_assoc|].
  rewrite <- !app_assoc, !length_app. reflexivity.
Qed.

(** X8.  With a client at hand, [web_search] reads the key from
    [TAVILY_API_KEY] and sends the provider exactly one search, for the
    query and depth it was given, asking for the inline answer and for
    neither raw content nor images; nothing but a final clock read
    follows. *)
Theorem web_search_request_shape query search_depth w client :
  new_TavilyClient w (os_getenv w "TAVILY_API_KEY") = inr client ->
  exists rest,
    log (snd (web_search query search_depth w)) =
      (log w ++ [Getenv "TAVILY_API_KEY";
                 TavilySearch (mkSearchArgs query search_depth true false false)]
             ++ rest)%list /\
    (rest = [] \/ rest = [ClockRead]).
Proof.
  intros Hclient. rewrite web_search_paths, Hclient. cbv zeta.
  destruct (client_search client _) as [e|search_result].
  - exists []. split; [reflexivity|now left].
  - destruct (dict_get search_result "answer" (PStr "")) as [e|answer].
    + exists []. split; [reflexivity|now left].
    + destruct (dict_get search_result "results" (PList [])) as [e|results].
      * exists []. split; [reflexivity|now left].
      * exists [ClockRead]. split; [reflexivity|now right].
Qed.

(** X9.  What the provider binds to "answer" and "results" is returned
    as it is, a null answer included: only an absent field is given a
    default. *)
Theorem web_search_passes_provider_fields query search_depth w client d answer results :
  new_TavilyClient w (os_getenv w "TAVILY_API_KEY") = inr client ->
  client_search client (mkSearchArgs query search_depth true false false) = inr (PDict d) ->
  lookup "answer" d = Some answer ->
  lookup "results" d = Some results ->
  exists v,
    fst (web_search query search_depth w) = Ret v /\
    getitem v "answer" = inr answer /\
    getitem v "results" = inr results.
Proof.
  intros Hclient Hsearch Hanswer Hresults.
  rewrite web_search_paths, Hclient. cbv zeta. rewrite Hsearch. simpl.
  rewrite Hanswer, Hresults. eexists. repeat split.
Qed.

(** X10.  When the provider's response has no "results", the value
    [web_search] returns binds "results" to the empty list. *)
Theorem web_search_results_default_to_empty query search_depth w client d :
  new_TavilyClient w (os_getenv w "TAVILY_API_KEY") = inr client ->
  client_search client (mkSearchArgs query search_depth true false false) = inr (PDict d) ->
  lookup "results" d = None ->
  exists v,
    fst (web_search query search_depth w) = Ret v /\
    getitem v "results" = inr (PList []).
Proof.
  intros Hclient Hsearch Hmiss.
  rewrite web_search_paths, Hclient. cbv zeta. rewrite Hsearch. simpl.
  rewrite Hmiss. destruct (lookup "answer" d); eexists; split; reflexivity.
Qed.

(** X11.  The value [web_search] returns has a fixed shape: the three keys
    "answer", "results" and "search_metadata", the last with "timestamp"
    and "query"; every other field of the provider's response is left
    out. *)
Theorem web_search_output_shape query search_depth w client d :
  new_TavilyClient w (os_getenv w "TAVILY_API_KEY") = inr client ->
  client_search client (mkSearchArgs query search_depth true false false) = inr (PDict d) ->
  exists v answer results stamp,
    fst (web_search query search_depth w) = Ret v /\
    v = PDict [("answer", answer);
               ("results", results);
               ("search_metadata",
                PDict [("timestamp", PStr stamp); ("query", PStr query)])] /\
    forall k,
      k <> "answer" -> k <> "results" -> k <> "search_metadata" ->
      getitem v k = inl (mkExn KeyError (repr_str k)).
Proof.
  intros Hclient Hsearch.
  rewrite web_search_paths, Hclient. cbv zeta. rewrite Hsearch. simpl.
  destruct (lookup "answer" d); destruct (lookup "results" d); simpl;
    (do 4 eexists; split; [reflexivity|]; split; [reflexivity|];
     intros k Ha Hr Hm; cbn [getitem lookup];
     apply String.eqb_neq in Ha, Hr, Hm;
     rewrite String.eqb_sym in Ha; rewrite String.eqb_sym in Hr;
     rewrite String.eqb_sym in Hm;
     now rewrite Ha, Hr, Hm).
Qed.

(** X12.  [web_search] catches nothing: when the client cannot be built
    its error is raised before any search is sent; when the search
    raises, that error is raised and the clock is not read. *)
Theorem web_search_errors_propagate query search_depth w e :
  (new_TavilyClient w (os_getenv w "TAVILY_API_KEY") = inl e ->
   web_search query search_depth w = (Raise e, logged [Getenv "TAVILY_API_KEY"] w))
  /\
  (forall client,
     new_TavilyClient w (os_getenv w "TAVILY_API_KEY") = inr client ->
     client_search client (mkSearchArgs query search_depth true false false) = inl e ->
     web_search query search_depth w =
     (Raise e,
      logged [Getenv "TAVILY_API_KEY";
              TavilySearch (mkSearchArgs query search_depth true false false)] w)).
Proof.
  split.
  - intros Hclient. now rewrite web_search_paths, Hclient.
  - intros client Hclient Hsearch.
    rewrite web_search_paths, Hclient. cbv zeta. now rewrite Hsearch.
Qed.

(** X13.  When the provider's response is not a mapping, [web_search]
    raises [AttributeError] (the response has no [get]) and returns
    nothing. *)
Theorem web_search_rejects_non_mapping query search_depth w client response :
  new_TavilyClient w (os_getenv w "TAVILY_API_KEY") = inr client ->
  client_search client (mkSearchArgs query search_depth true false false) = inr response ->
  (forall d, response <> PDict d) ->
  fst (web_search query search_depth w) =
  Raise (mkExn AttributeError
           ("'" ++ type_name response ++ "' object has no attribute 'get'")).
Proof.
  intros Hclient Hsearch Hshape.
  rewrite web_search_paths, Hclient. cbv zeta. rewrite Hsearch.
  destruct response; try reflexivity.
  now destruct (Hshape d).
Qed.

(** *** SQL execution *)

Lemma execute_sql_tool_committed query (DB_ENGINE : Engine DbState) w result rows c s :
  eng_connect DB_ENGINE = None ->
  eng_execute DB_ENGINE query (db w) (db w) = mkExecuted (inr result) c s ->
  cursor_fetchall result = inr rows ->
  eng_commit DB_ENGINE s = None ->
  observe (execute_sql_tool query DB_ENGINE w) =
  (Ret (PStr (str (PList rows))),
   (log w ++ [DbConnect; DbBegin; DbExecute query; DbFetchall; DbCommit; DbClose])%list,
   s, None).
Proof.
  intros Hconn Hexec Hfetch Hcommit.
  rewrite execute_sql_tool_run. unfold execute_sql_tool_paths. cbv zeta.
  rewrite Hconn, Hexec. simpl. rewrite Hfetch, Hcommit. now rewrite <- app_assoc.
Qed.

(** X14.  Two calls of [execute_sql_tool] that both complete compose: the
    second statement runs on the contents the first one committed, and
    the log shows two scopes, one closed before the other opens. *)
Theorem execute_sql_tool_calls_compose
    query1 query2 (DB_ENGINE : Engine DbState) w
    result1 rows1 c1 s1 result2 rows2 c2 s2 :
  eng_connect DB_ENGINE = None ->
  eng_execute DB_ENGINE query1 (db w) (db w) = mkExecuted (inr result1) c1 s1 ->
  cursor_fetchall result1 = inr rows1 ->
  eng_commit DB_ENGINE s1 = None ->
  eng_execute DB_ENGINE query2 s1 s1 = mkExecuted (inr result2) c2 s2 ->
  cursor_fetchall result2 = inr rows2 ->
  eng_commit DB_ENGINE s2 = None ->
  observe (execute_sql_tool query2 DB_ENGINE
             (snd (execute_sql_tool query1 DB_ENGINE w))) =
  (Ret (PStr (str (PList rows2))),
   (log w
    ++ [DbConnect; DbBegin; DbExecute query1; DbFetchall; DbCommit; DbClose]
    ++ [DbConnect; DbBegin; DbExecute query2; DbFetchall; DbCommit; DbClose])%list,
   s2, None).
Proof.
  intros Hconn Hexec1 Hfetch1 Hcommit1 Hexec2 Hfetch2 Hcommit2.
  pose proof (execute_sql_tool_committed query1 DB_ENGINE w _ _ _ _
                Hconn Hexec1 Hfetch1 Hcommit1) as Hfirst.
  unfold observe in Hfirst. injection Hfirst as _ Hlog1 Hdb1 _.
  rewrite (execute_sql_tool_committed query2 DB_ENGINE _ result2 rows2 c2 s2 Hconn).
  - rewrite Hlog1. now rewrite <- app_assoc.
  - now rewrite Hdb1.
  - exact Hfetch2.
  - exact Hcommit2.
Qed.

Lemma execute_sql_tool_from_contents query (DB_ENGINE : Engine DbState) w1 w2 :
  eng_connect DB_ENGINE = None ->
  db w1 = db w2 ->
  fst (execute_sql_tool query DB_ENGINE w1) = fst (execute_sql_tool query DB_ENGINE w2) /\
  db (snd (execute_sql_tool query DB_ENGINE w1)) =
  db (snd (execute_sql_tool query DB_ENGINE w2)).
Proof.
  intros Hconn Hdb.
  pose proof (execute_sql_tool_run query DB_ENGINE w1) as H1.
  pose proof (execute_sql_tool_run query DB_ENGINE w2) as H2.
  unfold observe, execute_sql_tool_paths in H1, H2. cbv zeta in H1, H2.
  rewrite Hconn, Hdb in H1. rewrite Hconn in H2.
  destruct (eng_execute DB_ENGINE query (db w2) (db w2)) as [[e|result] c s];
    simpl in H1, H2.
  - injection H1 as -> _ -> _. injection H2 as -> _ -> _. auto.
  - destruct (cursor_fetchall result) as [e|rows].
    + injection H1 as -> _ -> _. injection H2 as -> _ -> _. auto.
    + destruct (eng_commit DB_ENGINE s) as [e|].
      * injection H1 as -> _ -> _. injection H2 as -> _ -> _. auto.
      * injection H1 as -> _ -> _. injection H2 as -> _ -> _. auto.
Qed.

(** X15.  A call of [execute_sql_tool] that raises, on a statement whose
    effects the engine kept inside the transaction (it left the committed
    contents as they were), leaves nothing behind: any statement run next
    gives the outcome and the contents it would have given had the failed
    call not been made.  Nothing is said of a statement that the driver
    applies outside the transaction. *)
Theorem execute_sql_tool_failure_leaves_no_trace
    query1 query2 (DB_ENGINE : Engine DbState) w e :
  eng_connect DB_ENGINE = None ->
  st_committed (eng_execute DB_ENGINE query1 (db w) (db w)) = db w ->
  fst (execute_sql_tool query1 DB_ENGINE w) = Raise e ->
  fst (execute_sql_tool query2 DB_ENGINE (snd (execute_sql_tool query1 DB_ENGINE w))) =
    fst (execute_sql_tool query2 DB_ENGINE w)
  /\
  db (snd (execute_sql_tool query2 DB_ENGINE
             (snd (execute_sql_tool query1 DB_ENGINE w)))) =
    db (snd (execute_sql_tool query2 DB_ENGINE w)).
Proof.
  intros Hconn Hinside Hraise.
  apply execute_sql_tool_from_contents; [exact Hconn|].
  pose proof (execute_sql_tool_run query1 DB_ENGINE w) as Hrun.
  unfold observe, execute_sql_tool_paths in Hrun. cbv zeta in Hrun.
  rewrite Hconn in Hrun.
  destruct (eng_execute DB_ENGINE query1 (db w) (db w)) as [[e1|result] c s];
    simpl in Hrun, Hinside.
  - injection Hrun as _ _ Hdb _. congruence.
  - destruct (cursor_fetchall result) as [e1|rows].
    + injection Hrun as _ _ Hdb _. congruence.
    + destruct (eng_commit DB_ENGINE s) as [e1|].
      * injection Hrun as _ _ Hdb _. congruence.
      * injection Hrun as Hout _ _ _. congruence.
Qed.

(** X16.  What [execute_sql_tool] and [get_table_schema_tool] return is
    always a string, never the rows or the descriptors themselves. *)
Theorem sql_tools_return_text query table_name (DB_ENGINE : Engine DbState) w v :
  (fst (execute_sql_tool query DB_ENGINE w) = Ret v -> exists s, v = PStr s)
  /\
  (fst (get_table_schema_tool table_name DB_ENGINE w) = Ret v -> exists s, v = PStr s).
Proof.
  split.
  - pose proof (execute_sql_tool_run query DB_ENGINE w) as Hrun.
    unfold observe, execute_sql_tool_paths in Hrun. cbv zeta in Hrun.
    destruct (eng_connect DB_ENGINE) as [e|].
    { injection Hrun as -> _ _ _. discriminate. }
    destruct (eng_execute DB_ENGINE query (db w) (db w)) as [[e|result] c s];
      simpl in Hrun.
    { injection Hrun as -> _ _ _. discriminate. }
    destruct (cursor_fetchall result) as [e|rows].
    { injection Hrun as -> _ _ _. discriminate. }
    destruct (eng_commit DB_ENGINE s) as [e|].
    { injection Hrun as -> _ _ _. discriminate. }
    injection Hrun as -> _ _ _. intros [= <-]. eauto.
  - rewrite get_table_schema_tool_run.
    destruct (eng_inspect DB_ENGINE (db w)) as [e|inspector]; [discriminate|].
    destruct (insp_get_columns inspector table_name) as [e|columns];
      [discriminate|].
    simpl. intros [= <-]. eauto.
Qed.

(** *** Vector search *)

(** X17.  When the pipeline ends in a state that is not a mapping (a run
    without a final state gives [None]), [search_collection] raises
    [TypeError], not the [KeyError] of a missing "answer". *)
Theorem search_collection_rejects_non_mapping (RAG_collection : RAG) query w result :
  rag_invoke RAG_collection query = inr result ->
  (forall d, run_final_state result <> PDict d) ->
  exists msg,
    search_collection RAG_collection query w =
    (Raise (mkExn TypeError msg), logged [RagInvoke query] w).
Proof.
  intros Hinv Hshape. rewrite search_collection_run, Hinv.
  destruct (run_final_state result) eqn:Hstate; simpl; eauto.
  now destruct (Hshape d).
Qed.

(** X18.  [search_collection] catches nothing and never retries: an error
    of the pipeline is raised as it is, after the one invocation; and in
    every case the call is one invocation that leaves the database
    alone. *)
Theorem search_collection_invokes_once (RAG_collection : RAG) query w :
  (forall e,
     rag_invoke RAG_collection query = inl e ->
     fst (search_collection RAG_collection query w) = Raise e)
  /\
  log (snd (search_collection RAG_collection query w)) =
    (log w ++ [RagInvoke query])%list
  /\
  db (snd (search_collection RAG_collection query w)) = db w
  /\
  txn (snd (search_collection RAG_collection query w)) = txn w.
Proof.
  rewrite search_collection_run. simpl.
  split; [|auto]. intros e Hinv. now rewrite Hinv.
Qed.

End MoreFacts.

(* ================================================================== *)
(** ** The further properties on the concrete world *)
(* ================================================================== *)

(** A world with a log and a database of its own, answering HTTP as
    [Demo.world0] does, gives the same outcomes. *)
Lemma http_outcome_from_answer_only_witness :
  fst (GET_request "http://api.test/game/7"
         (snd (execute_sql_tool "INSERT INTO games (name) VALUES ('Halo') RETURNING name"
                 Demo.engine Demo.world0))) =
    fst (GET_request "http://api.test/game/7" Demo.world0)
  /\
  fst (POST_request "http://api.test/fail" (PDict [])
         (snd (execute_sql_tool "INSERT INTO games (name) VALUES ('Halo') RETURNING name"
                 Demo.engine Demo.world0))) =
    fst (POST_request "http://api.test/fail" (PDict []) Demo.world0).
Proof.
  split.
  - apply (proj1 (http_outcome_from_answer_only _ Demo.world0
                    "http://api.test/game/7" (PDict []))).
    reflexivity.
  - apply (proj2 (http_outcome_from_answer_only _ Demo.world0
                    "http://api.test/fail" (PDict []))).
    reflexivity.
Defined.

(** What escapes on a client failing with a [ValueError] is not a
    [RequestException]. *)
Lemma http_adapters_never_raise_request_exception_witness :
  isinstance (mkExn ValueError "label empty or too long") RequestException = false
  /\
  isinstance (mkExn JSONDecodeError "Expecting value: line 1 column 1 (char 0)")
    RequestException = false.
Proof.
  split.
  - apply (proj1 (http_adapters_never_raise_request_exception Demo.world_bad_url
                    "http://xn--/" (PDict []) _)).
    reflexivity.
  - apply (proj2 (http_adapters_never_raise_request_exception Demo.world0
                    "http://api.test/legacy" (PDict []) _)).
    reflexivity.
Defined.

Lemma http_adapters_let_other_exceptions_escape_witness :
  fst (GET_request "http://xn--/" Demo.world_bad_url) =
    Raise (mkExn ValueError "label empty or too long")
  /\
  fst (POST_request "http://xn--/" (PDict []) Demo.world_bad_url) =
    Raise (mkExn ValueError "label empty or too long").
Proof.
  destruct (http_adapters_let_other_exceptions_escape Demo.world_bad_url
              "http://xn--/" (PDict [])
              (mkExn ValueError "label empty or too long") eq_refl)
    as [Hget Hpost].
  split.
  - now rewrite (Hget eq_refl).
  - now rewrite (Hpost eq_refl).
Defined.

Lemma list_tables_tool_lists_names_witness :
  exists l,
    list_tables_tool Demo.engine Demo.world0 =
      (Ret (PList l), logged [DbInspect; DbGetTableNames] Demo.world0) /\
    List.length l = 1 /\
    forall i, nth_error l i = option_map PStr (nth_error ["games"] i).
Proof.
  apply (list_tables_tool_lists_names Demo.engine Demo.world0 Demo.inspector ["games"]);
    reflexivity.
Defined.

Lemma introspection_errors_propagate_witness :
  fst (list_tables_tool Demo.offline_engine Demo.world0) =
    Raise (mkExn OperationalError "unable to open database file")
  /\
  fst (get_table_schema_tool "games" Demo.offline_engine Demo.world0) =
    Raise (mkExn OperationalError "unable to open database file")
  /\
  fst (list_tables_tool Demo.locked_engine Demo.world0) =
    Raise (mkExn OperationalError "database is locked").
Proof.
  destruct (introspection_errors_propagate Demo.offline_engine Demo.world0
              (mkExn OperationalError "unable to open database file"))
    as [Hoffline _].
  destruct (Hoffline eq_refl) as [Hlist Hschema].
  destruct (introspection_errors_propagate Demo.locked_engine Demo.world0
              (mkExn OperationalError "database is locked"))
    as [_ Hlocked].
  split; [now rewrite Hlist|]. split; [now rewrite Hschema|].
  now rewrite (Hlocked Demo.locked_inspector eq_refl eq_refl).
Defined.

Lemma web_search_request_shape_witness :
  exists rest,
    log (snd (web_search "best rpg 2023" "basic" Demo.world0)) =
      ([] ++ [Getenv "TAVILY_API_KEY";
              TavilySearch (mkSearchArgs "best rpg 2023" "basic" true false false)]
          ++ rest)%list /\
    (rest = [] \/ rest = [ClockRead]).
Proof.
  apply (web_search_request_shape "best rpg 2023" "basic" Demo.world0 Demo.client).
  reflexivity.
Defined.

(** A null answer of the provider comes back as null. *)
Lemma web_search_passes_provider_fields_witness :
  exists v,
    fst (web_search "hades release" "advanced" Demo.world_null_answer) = Ret v /\
    getitem v "answer" = inr PNone /\
    getitem v "results" = inr (PList [PDict [("title", PStr "Hades")]]).
Proof.
  apply (web_search_passes_provider_fields "hades release" "advanced"
           Demo.world_null_answer
           (mkTavilyClient (fun _ => inr Demo.null_answer_reply))
           [("answer", PNone);
            ("results", PList [PDict [("title", PStr "Hades")]]);
            ("images", PList []);
            ("response_time", PInt 2)]);
    reflexivity.
Defined.

Lemma web_search_results_default_to_empty_witness :
  exists v,
    fst (web_search "hades release" "advanced" Demo.world_bare_reply) = Ret v /\
    getitem v "results" = inr (PList []).
Proof.
  apply (web_search_results_default_to_empty "hades release" "advanced"
           Demo.world_bare_reply
           (mkTavilyClient (fun _ => inr Demo.bare_reply))
           [("answer", PStr "Hades was released in 2020.")]);
    reflexivity.
Defined.

(** The provider's "images" and "response_time" are not in the result. *)
Lemma web_search_output_shape_witness :
  exists v answer results stamp,
    fst (web_search "hades release" "advanced" Demo.world_null_answer) = Ret v /\
    v = PDict [("answer", answer);
               ("results", results);
               ("search_metadata",
                PDict [("timestamp", PStr stamp); ("query", PStr "hades release")])] /\
    forall k,
      k <> "answer" -> k <> "results" -> k <> "search_metadata" ->
      getitem v k = inl (mkExn KeyError (repr_str k)).
Proof.
  apply (web_search_output_shape "hades release" "advanced" Demo.world_null_answer
           (mkTavilyClient (fun _ => inr Demo.null_answer_reply))
           [("answer", PNone);
            ("results", PList [PDict [("title", PStr "Hades")]]);
            ("images", PList []);
            ("response_time", PInt 2)]);
    reflexivity.
Defined.

Lemma web_search_errors_propagate_witness :
  web_search "hades release" "advanced" Demo.world_no_key =
    (Raise (mkExn Exception "No API key provided"),
     logged [Getenv "TAVILY_API_KEY"] Demo.world_no_key)
  /\
  web_search "hades release" "advanced" Demo.world_search_down =
    (Raise (mkExn Exception "usage limit exceeded"),
     logged [Getenv "TAVILY_API_KEY";
             TavilySearch (mkSearchArgs "hades release" "advanced" true false false)]
       Demo.world_search_down).
Proof.
  split.
  - apply (proj1 (web_search_errors_propagate "hades release" "advanced"
                    Demo.world_no_key (mkExn Exception "No API key provided"))).
    reflexivity.
  - apply (proj2 (web_search_errors_propagate "hades release" "advanced"
                    Demo.world_search_down (mkExn Exception "usage limit exceeded"))
             (mkTavilyClient (fun _ => inl (mkExn Exception "usage limit exceeded"))));
      reflexivity.
Defined.

Lemma web_search_rejects_non_mapping_witness :
  fst (web_search "hades release" "advanced" Demo.world_list_reply) =
  Raise (mkExn AttributeError "'list' object has no attribute 'get'").
Proof.
  apply (web_search_rejects_non_mapping "hades release" "advanced"
           Demo.world_list_reply
           (mkTavilyClient (fun _ => inr (PList []))) (PList []));
    [reflexivity|reflexivity|discriminate].
Defined.

(** An insert, then a select that sees the inserted row. *)
Lemma execute_sql_tool_calls_compose_witness :
  observe (execute_sql_tool "SELECT name FROM games" Demo.engine
             (snd (execute_sql_tool
                     "INSERT INTO games (name) VALUES ('Halo') RETURNING name"
                     Demo.engine Demo.world0))) =
  (Ret (PStr "[('Halo',)]"),
   [DbConnect; DbBegin;
    DbExecute "INSERT INTO games (name) VALUES ('Halo') RETURNING name";
    DbFetchall; DbCommit; DbClose;
    DbConnect; DbBegin; DbExecute "SELECT name FROM games";
    DbFetchall; DbCommit; DbClose],
   [Demo.halo], None).
Proof.
  apply (execute_sql_tool_calls_compose
           "INSERT INTO games (name) VALUES ('Halo') RETURNING name"
           "SELECT name FROM games" Demo.engine Demo.world0
           (mkCursor (inr [Demo.halo])) [Demo.halo] [] [Demo.halo]
           (mkCursor (inr [Demo.halo])) [Demo.halo] [Demo.halo] [Demo.halo]);
    reflexivity.
Defined.

(** An insert without rows to fetch is rolled back; the select that
    follows sees an empty table, as it would have without the insert. *)
Lemma execute_sql_tool_failure_leaves_no_trace_witness :
  fst (execute_sql_tool "SELECT name FROM games" Demo.engine
         (snd (execute_sql_tool "INSERT INTO games (name) VALUES ('Halo')"
                 Demo.engine Demo.world0))) =
    fst (execute_sql_tool "SELECT name FROM games" Demo.engine Demo.world0)
  /\
  db (snd (execute_sql_tool "SELECT name FROM games" Demo.engine
             (snd (execute_sql_tool "INSERT INTO games (name) VALUES ('Halo')"
                     Demo.engine Demo.world0)))) =
    db (snd (execute_sql_tool "SELECT name FROM games" Demo.engine Demo.world0)).
Proof.
  apply (execute_sql_tool_failure_leaves_no_trace
           "INSERT INTO games (name) VALUES ('Halo')" "SELECT name FROM games"
           Demo.engine Demo.world0
           (mkExn ResourceClosedError
              "This result object does not return rows. It has been closed automatically."));
    reflexivity.
Defined.

Lemma sql_tools_return_text_witness :
  (exists s, PStr "[]" = PStr s)
  /\
  (exists s, PStr (render_columns Demo.games_schema) = PStr s).
Proof.
  split.
  - apply (proj1 (sql_tools_return_text "SELECT name FROM games" "games"
                    Demo.engine Demo.world0 (PStr "[]"))).
    reflexivity.
  - apply (proj2 (sql_tools_return_text "SELECT name FROM games" "games"
                    Demo.engine Demo.world0 (PStr (render_columns Demo.games_schema)))).
    reflexivity.
Defined.

Lemma search_collection_rejects_non_mapping_witness :
  exists msg,
    search_collection Demo.stalled_pipeline "who made Halo" Demo.world0 =
    (Raise (mkExn TypeError msg), logged [RagInvoke "who made Halo"] Demo.world0).
Proof.
  apply (search_collection_rejects_non_mapping Demo.stalled_pipeline "who made Halo"
           Demo.world0 (mkRun PNone));
    [reflexivity|discriminate].
Defined.

Lemma search_collection_invokes_once_witness :
  fst (search_collection Demo.failing_pipeline "who made Halo" Demo.world0) =
  Raise (mkExn Exception "retrieval failed").
Proof.
  apply (proj1 (search_collection_invokes_once Demo.failing_pipeline "who made Halo"
                  Demo.world0)).
  reflexivity.
Defined.
